(** * Reference-vector generator of the MeshCore command and LPP codecs

    A shallow embedding of [MeshCore/Scripts/generate_reference_bytes.py]:
    the Python primitives the script calls ([bytes], [int.to_bytes],
    [str.encode], [ljust], [bytes.fromhex], [int] of a float, dictionary
    assignment) and the two generator functions built from them, followed by
    the properties of the frames they produce. *)

From Stdlib Require Import ZArith List String Ascii Bool Lia.
From Stdlib Require Import QArith Qround.
From Stdlib Require Import PrimFloat SpecFloat FloatOps.
Import ListNotations.

Set Warnings "-inexact-float".
Local Open Scope string_scope.
Local Open Scope list_scope.
Local Open Scope Z_scope.

(** ** Python values and exceptions *)

(** A [bytes] (or [bytearray]) object: its elements, each in [0, 256). *)
Definition bytes := list Z.

Inductive PyExc : Type :=
| ValueError
| OverflowError
| KeyError.

Inductive res (A : Type) : Type :=
| Ok (a : A)
| Raise (e : PyExc).

Arguments Ok {A} a.
Arguments Raise {A} e.

Definition res_bind {A B : Type} (m : res A) (k : A -> res B) : res B :=
  match m with
  | Ok a => k a
  | Raise e => Raise e
  end.

(** [e1 + e2] on bytes: the left operand is evaluated first. *)
Definition cat (e1 e2 : res bytes) : res bytes :=
  res_bind e1 (fun b1 => res_bind e2 (fun b2 => Ok (b1 ++ b2))).

Infix "+++" := cat (at level 61, left associativity).

(** ** The ambient world

    What a Python function could sample besides its arguments: the wall
    clock (the script imports [datetime]) and a source of randomness. *)
Record World : Type := mkWorld {
  clock : Z;
  entropy : list Z
}.

Definition Py (A : Type) : Type := World -> res A.

Definition ret {A : Type} (a : A) : Py A := fun _ => Ok a.

Definition bind {A B : Type} (m : Py A) (k : A -> Py B) : Py B :=
  fun w => match m w with
           | Ok a => k a w
           | Raise e => Raise e
           end.

Definition lift {A : Type} (r : res A) : Py A := fun _ => r.

(** [datetime.now().timestamp()]: available to any code in the monad. *)
Definition datetime_now : Py Z := fun w => Ok (clock w).

(** [random.getrandbits(8)]. *)
Definition random_byte : Py Z := fun w => Ok (hd 0 (entropy w)).

Notation "x <- m ;; k" := (bind m (fun x => k))
  (at level 100, m at next level, right associativity).

(** ** bytes and int primitives *)

Definition is_byte (b : Z) : bool := (0 <=? b) && (b <? 256).

(** [bytes([b0, b1, ...])] and [bytearray([...])]: every element must be in
    [range(256)]. *)
Definition bytes_lit (l : list Z) : res bytes :=
  if forallb is_byte l then Ok l else Raise ValueError.

(** [range(n)]. *)
Definition py_range (n : nat) : list Z := map Z.of_nat (seq 0 n).

Inductive ByteOrder : Type := Little | Big.

(** The [len] base-256 digits of [n], least significant first. *)
Fixpoint le_digits (len : nat) (n : Z) : bytes :=
  match len with
  | O => []
  | S len' => (n mod 256) :: le_digits len' (n / 256)
  end.

(** [n.to_bytes(len, order, signed=signed)]. *)
Definition to_bytes (n : Z) (len : nat) (order : ByteOrder) (signed : bool)
  : res bytes :=
  let bits := 8 * Z.of_nat len in
  let fits :=
    if signed
    then (- 2 ^ (bits - 1) <=? n) && (n <? 2 ^ (bits - 1)) && (0 <? bits)
         || (n =? 0)
    else (0 <=? n) && (n <? 2 ^ bits) in
  if fits
  then let ds := le_digits len (n mod 2 ^ bits) in
       Ok (match order with Little => ds | Big => rev ds end)
  else Raise OverflowError.

(** [s.encode()] / [s.encode("utf-8")]: a [string] here holds the UTF-8
    bytes of the Python literal. *)
Definition str_encode (s : string) : bytes :=
  map (fun c => Z.of_N (N_of_ascii c)) (list_ascii_of_string s).

(** A UTF-8 continuation byte, [0b10xxxxxx]. *)
Definition is_continuation (c : ascii) : bool :=
  let n := N_of_ascii c in (128 <=? n)%N && (n <? 192)%N.

(** [len(s)] for a [str]: the number of code points. *)
Definition str_len (s : string) : nat :=
  List.length (filter (fun c => negb (is_continuation c))
                      (list_ascii_of_string s)).

Fixpoint str_repeat (c : ascii) (n : nat) : string :=
  match n with
  | O => EmptyString
  | S n' => String c (str_repeat c n')
  end.

(** [s.ljust(width, fillchar)]: [s] itself when it is already [width] long
    or longer. *)
Definition str_ljust (s : string) (width : nat) (fillchar : ascii) : string :=
  (s ++ str_repeat fillchar (width - str_len s))%string.

(** [b.ljust(width, fillbyte)]. *)
Definition bytes_ljust (b : bytes) (width : nat) (fillbyte : Z) : bytes :=
  (b ++ repeat fillbyte (width - List.length b))%list.

Definition is_space (c : ascii) : bool :=
  let n := N_of_ascii c in
  (n =? 32)%N || ((9 <=? n)%N && (n <=? 13)%N).

Definition hex_digit (c : ascii) : option Z :=
  let n := Z.of_N (N_of_ascii c) in
  if (48 <=? n) && (n <=? 57) then Some (n - 48)
  else if (97 <=? n) && (n <=? 102) then Some (n - 87)
  else if (65 <=? n) && (n <=? 70) then Some (n - 55)
  else None.

(** [bytes.fromhex]: two hexadecimal digits per byte, ASCII whitespace
    between bytes skipped, anything else a [ValueError]. *)
Fixpoint fromhex_chars (l : list ascii) : res bytes :=
  match l with
  | [] => Ok []
  | c :: rest =>
      if is_space c then fromhex_chars rest
      else match hex_digit c with
           | None => Raise ValueError
           | Some top =>
               match rest with
               | [] => Raise ValueError
               | d :: rest' =>
                   match hex_digit d with
                   | None => Raise ValueError
                   | Some bot =>
                       res_bind (fromhex_chars rest')
                                (fun bs => Ok ((16 * top + bot) :: bs))
                   end
               end
           end
  end.

Definition bytes_fromhex (s : string) : res bytes :=
  fromhex_chars (list_ascii_of_string s).

(** [int(x)] for a float [x]: truncation toward zero. *)
Definition int_of_float (x : float) : res Z :=
  match Prim2SF x with
  | S754_zero _ => Ok 0
  | S754_infinity _ => Raise OverflowError
  | S754_nan => Raise ValueError
  | S754_finite s m e =>
      let mag := match e with
                 | Zneg p => Z.pos m / 2 ^ Z.pos p
                 | _ => Z.pos m * 2 ^ e
                 end in
      Ok (if s then - mag else mag)
  end.

(** ** Dictionaries

    A [dict] keeps its keys in insertion order; assigning to a key that is
    present replaces the value in place. *)
Definition dict := list (string * bytes).

Fixpoint setitem (d : dict) (k : string) (v : bytes) : dict :=
  match d with
  | [] => [(k, v)]
  | (k', v') :: d' =>
      if String.eqb k' k then (k, v) :: d' else (k', v') :: setitem d' k v
  end.

Fixpoint get (d : dict) (k : string) : option bytes :=
  match d with
  | [] => None
  | (k', v') :: d' => if String.eqb k' k then Some v' else get d' k
  end.

(** [d[k]]. *)
Definition getitem (d : dict) (k : string) : res bytes :=
  match get d k with
  | Some v => Ok v
  | None => Raise KeyError
  end.

(** [references[k] = e]: evaluate [e], then store. *)
Definition assign (references : dict) (k : string) (e : res bytes) : Py dict :=
  lift (res_bind e (fun v => Ok (setitem references k v))).

(** ** The script *)

(** Reference timestamp: 2024-01-01 00:00:00 UTC. *)
Definition REFERENCE_TIMESTAMP : Z := 1704067200.

(** The expression of the 32-byte destination,
    [bytes.fromhex(prefix.ljust(64, '0'))], at a given hex prefix. *)
Definition dst32_of (prefix : string) : res bytes :=
  bytes_fromhex (str_ljust prefix 64 "0"%char).

(** The frames built on the 32-byte destination, as functions of it. *)
Definition sendLogin_frame (dst32 : bytes) : res bytes :=
  bytes_lit [0x1A] +++ Ok dst32 +++ Ok (str_encode "secret").

Definition sendLogout_frame (dst32 : bytes) : res bytes :=
  bytes_lit [0x1D] +++ Ok dst32.

Definition sendStatusRequest_frame (dst32 : bytes) : res bytes :=
  bytes_lit [0x1B] +++ Ok dst32.

Definition pathDiscovery_frame (dst32 : bytes) : res bytes :=
  bytes_lit [0x34; 0x00] +++ Ok dst32.

(** Generate reference bytes for PacketBuilder commands. *)
Definition generate_packet_builder_references : Py dict :=
  let references : dict := [] in
  (* appStart *)
  let reserved := "      " in
  let client_id := "MCore" in
  references <- assign references "appStart"
    (bytes_lit [0x01; 0x03] +++ Ok (str_encode reserved)
       +++ Ok (str_encode client_id)) ;;
  references <- assign references "deviceQuery" (bytes_lit [0x16; 0x03]) ;;
  references <- assign references "getBattery" (bytes_lit [0x14]) ;;
  references <- assign references "getTime" (bytes_lit [0x05]) ;;
  (* setTime *)
  references <- assign references "setTime_1704067200"
    (bytes_lit [0x06] +++ to_bytes REFERENCE_TIMESTAMP 4 Little false) ;;
  (* setName *)
  references <- assign references "setName_TestNode"
    (bytes_lit [0x08] +++ Ok (str_encode "TestNode")) ;;
  (* setCoords *)
  lat <- lift (int_of_float (37.7749 * 1e6)%float) ;;
  lon <- lift (int_of_float (-122.4194 * 1e6)%float) ;;
  references <- assign references "setCoords_SF"
    (bytes_lit [0x0E]
       +++ to_bytes lat 4 Little true
       +++ to_bytes lon 4 Little true
       +++ to_bytes 0 4 Little false) ;;
  (* setTxPower *)
  references <- assign references "setTxPower_20"
    (bytes_lit [0x0C] +++ to_bytes 20 4 Little false) ;;
  (* setRadio *)
  references <- assign references "setRadio_default"
    (bytes_lit [0x0B]
       +++ res_bind (int_of_float (906.875 * 1000)%float)
                    (fun n => to_bytes n 4 Little false)
       +++ res_bind (int_of_float (250.0 * 1000)%float)
                    (fun n => to_bytes n 4 Little false)
       +++ to_bytes 11 1 Little false
       +++ to_bytes 8 1 Little false) ;;
  (* sendAdvertisement *)
  references <- assign references "sendAdvertisement" (bytes_lit [0x07]) ;;
  references <- assign references "sendAdvertisement_flood"
    (bytes_lit [0x07; 0x01]) ;;
  (* reboot *)
  references <- assign references "reboot"
    (bytes_lit [0x13] +++ Ok (str_encode "reboot")) ;;
  references <- assign references "getContacts" (bytes_lit [0x04]) ;;
  references <- assign references "getMessage" (bytes_lit [0x0A]) ;;
  (* sendMessage *)
  dst <- lift (bytes_fromhex "0123456789AB") ;;
  ts <- lift (to_bytes REFERENCE_TIMESTAMP 4 Little false) ;;
  references <- assign references "sendMessage_Hello"
    (bytes_lit [0x02; 0x00; 0x00] +++ Ok ts +++ Ok dst
       +++ Ok (str_encode "Hello")) ;;
  (* sendCommand *)
  references <- assign references "sendCommand_status"
    (bytes_lit [0x02; 0x01; 0x00] +++ Ok ts +++ Ok dst
       +++ Ok (str_encode "status")) ;;
  (* sendChannelMessage *)
  references <- assign references "sendChannelMessage_0_Hi"
    (bytes_lit [0x03; 0x00; 0x00] +++ Ok ts +++ Ok (str_encode "Hi")) ;;
  (* sendLogin *)
  dst32 <- lift (dst32_of "0123456789AB") ;;
  references <- assign references "sendLogin" (sendLogin_frame dst32) ;;
  references <- assign references "sendLogout" (sendLogout_frame dst32) ;;
  references <- assign references "sendStatusRequest"
    (sendStatusRequest_frame dst32) ;;
  (* getChannel *)
  references <- assign references "getChannel_0" (bytes_lit [0x1F; 0x00]) ;;
  (* setChannel *)
  let name_bytes := bytes_ljust (str_encode "General") 32 0x00 in
  secret <- lift (bytes_lit (py_range 16)) ;;
  references <- assign references "setChannel_0_General"
    (bytes_lit [0x20; 0x00] +++ Ok name_bytes +++ Ok secret) ;;
  (* getStats *)
  references <- assign references "getStatsCore" (bytes_lit [0x38; 0x00]) ;;
  references <- assign references "getStatsRadio" (bytes_lit [0x38; 0x01]) ;;
  references <- assign references "getStatsPackets" (bytes_lit [0x38; 0x02]) ;;
  references <- assign references "getSelfTelemetry"
    (bytes_lit [0x27; 0x00; 0x00; 0x00]) ;;
  references <- assign references "exportPrivateKey" (bytes_lit [0x17]) ;;
  references <- assign references "signStart" (bytes_lit [0x21]) ;;
  references <- assign references "signFinish" (bytes_lit [0x23]) ;;
  (* pathDiscovery *)
  references <- assign references "pathDiscovery"
    (pathDiscovery_frame dst32) ;;
  (* sendTrace *)
  references <- assign references "sendTrace"
    (bytes_lit [0x24]
       +++ to_bytes 12345 4 Little false
       +++ to_bytes 67890 4 Little false
       +++ bytes_lit [0x00]) ;;
  ret references.

(** Generate LPP reference bytes manually using Cayenne LPP spec. *)
Definition generate_lpp_references_manual : Py dict :=
  let references : dict := [] in
  references <- assign references "lpp_temperature_25_5"
    (bytes_lit [0x01; 0x67; 0x00; 0xFF]) ;;
  references <- assign references "lpp_humidity_65"
    (bytes_lit [0x02; 0x68; 0x82]) ;;
  references <- assign references "lpp_analog_3_3"
    (bytes_lit [0x03; 0x02; 0x01; 0x4A]) ;;
  references <- assign references "lpp_gps_sf"
    (bytes_lit [0x04; 0x88;
                0x05; 0xC3; 0x95;
                0xED; 0x51; 0xFE;
                0x00; 0x03; 0xE8]) ;;
  references <- assign references "lpp_barometer_1013"
    (bytes_lit [0x05; 0x73; 0x27; 0x94]) ;;
  references <- assign references "lpp_accelerometer_1g"
    (bytes_lit [0x06; 0x71; 0x00; 0x00; 0x00; 0x00; 0x03; 0xE8]) ;;
  ret references.

(** [generate()[k]]: run a generator and index the mapping it returns. *)
Definition lookup_entry (generate : Py dict) (k : string) : Py bytes :=
  refs <- generate ;; lift (getitem refs k).

(** A world to run the generators in: clock at the epoch, no entropy. *)
Definition epoch_world : World := mkWorld 0 [].

(** The mappings the two generators return, by evaluation. *)
Definition packet_builder_references : dict :=
  Eval vm_compute in
    match generate_packet_builder_references epoch_world with
    | Ok refs => refs
    | Raise _ => []
    end.

Definition lpp_references_manual : dict :=
  Eval vm_compute in
    match generate_lpp_references_manual epoch_world with
    | Ok refs => refs
    | Raise _ => []
    end.

(** ** Reading frames back *)

(** The unsigned value of a big-endian byte string. *)
Definition be_value (bs : bytes) : Z :=
  fold_left (fun acc b => 256 * acc + b) bs 0.

(** The unsigned value of a little-endian byte string. *)
Definition le_value (bs : bytes) : Z := be_value (rev bs).

(** [frame[i:j]]. *)
Definition slice (frame : bytes) (i j : nat) : bytes :=
  firstn (j - i) (skipn i frame).

(** ** The LPP layouts written beside the literals

    The comments of [generate_lpp_references_manual] give each entry as
    [channel(1) + type(1) + components], every component a scaled value as a
    big-endian integer.  Readings are exact decimals, so they are rationals
    here. *)

(** Truncation toward zero. *)
Definition Qtrunc (q : Q) : Z := Z.quot (Qnum q) (Z.pos (Qden q)).

(** Rounding to nearest, halves up. *)
Definition Qround_nearest (q : Q) : Z := Qfloor (q + (1 # 2))%Q.

(** [lat(int24 BE, *10000) + lon(int24 BE, *10000) + alt(int24 BE, *100)]
    after [channel] and type [0x88]. *)
Definition lpp_gps (channel : Z) (lat lon alt : Q) : res bytes :=
  bytes_lit [channel; 0x88]
    +++ to_bytes (Qtrunc (lat * inject_Z 10000)%Q) 3 Big true
    +++ to_bytes (Qtrunc (lon * inject_Z 10000)%Q) 3 Big true
    +++ to_bytes (Qtrunc (alt * inject_Z 100)%Q) 3 Big true.

(** [value(uint16 BE, *10)] after [channel] and type [0x73], for a given
    way of turning the scaled reading into an integer. *)
Definition lpp_barometer (to_int : Q -> Z) (channel : Z) (hPa : Q)
  : res bytes :=
  bytes_lit [channel; 0x73]
    +++ to_bytes (to_int (hPa * inject_Z 10)%Q) 2 Big false.

(** ** The layout registry *)

Inductive CodecError : Type :=
| UnknownKind
| InvalidArgument
| ValueOutOfRange.

(** Modelled from the spec: the Layout Registry and the lookup by exact
    enumerated identifier, which the repository keeps outside this script.
    One entry per command or sensor kind with its leading opcode or type
    byte and, where the layout table gives one, the fixed second opcode
    byte; the field list of an entry is left to the field encoder. *)
Record LayoutEntry : Type := mkEntry {
  kind_id : string;
  opcode : Z;
  sub_opcode : option Z
}.

Definition command_registry : list LayoutEntry :=
  [ mkEntry "appStart" 0x01 (Some 0x03);
    mkEntry "deviceQuery" 0x16 (Some 0x03);
    mkEntry "getBattery" 0x14 None;
    mkEntry "getTime" 0x05 None;
    mkEntry "setTime" 0x06 None;
    mkEntry "setName" 0x08 None;
    mkEntry "setCoords" 0x0E None;
    mkEntry "setTxPower" 0x0C None;
    mkEntry "setRadio" 0x0B None;
    mkEntry "sendAdvertisement" 0x07 None;
    mkEntry "reboot" 0x13 None;
    mkEntry "getContacts" 0x04 None;
    mkEntry "getMessage" 0x0A None;
    mkEntry "sendMessage" 0x02 (Some 0x00);
    mkEntry "sendCommand" 0x02 (Some 0x01);
    mkEntry "sendChannelMessage" 0x03 (Some 0x00);
    mkEntry "sendLogin" 0x1A None;
    mkEntry "sendLogout" 0x1D None;
    mkEntry "sendStatusRequest" 0x1B None;
    mkEntry "getChannel" 0x1F None;
    mkEntry "setChannel" 0x20 None;
    mkEntry "getStats" 0x38 None;
    mkEntry "getSelfTelemetry" 0x27 None;
    mkEntry "exportPrivateKey" 0x17 None;
    mkEntry "signStart" 0x21 None;
    mkEntry "signFinish" 0x23 None;
    mkEntry "pathDiscovery" 0x34 None;
    mkEntry "sendTrace" 0x24 None ].

Definition sensor_registry : list LayoutEntry :=
  [ mkEntry "temperature" 0x67 None;
    mkEntry "humidity" 0x68 None;
    mkEntry "analogInput" 0x02 None;
    mkEntry "gps" 0x88 None;
    mkEntry "barometricPressure" 0x73 None;
    mkEntry "accelerometer" 0x71 None ].

Definition layout_registry : list LayoutEntry :=
  command_registry ++ sensor_registry.

(** Modelled from the spec: lookup in a registry table by exact identifier,
    failing with [UnknownKind]. *)
Definition lookup_in (table : list LayoutEntry) (id : string)
  : CodecError + LayoutEntry :=
  match find (fun e => String.eqb (kind_id e) id) table with
  | Some e => inr e
  | None => inl UnknownKind
  end.

Definition registry_lookup (id : string) : CodecError + LayoutEntry :=
  lookup_in layout_registry id.

Section Encoder.

(** The arguments of a call and the field-by-field encoder of a layout
    entry, both kept outside this script. *)
Variable Args : Type.
Variable encode_fields : LayoutEntry -> Args -> CodecError + bytes.

(** Modelled from the spec: [encode(kind, args)], a registry lookup
    followed by the field-by-field encoding. *)
Definition encode (id : string) (args : Args) : CodecError + bytes :=
  match registry_lookup id with
  | inl err => inl err
  | inr e => encode_fields e args
  end.

End Encoder.

(** The command kind a reference name belongs to: names are a kind,
    optionally followed by the arguments of the vector
    ([setTime_1704067200], [getStatsCore]). *)
Definition kind_of_entry (name : string) : option LayoutEntry :=
  find (fun e => String.prefix (kind_id e) name) command_registry.

(** A frame opens with the opcode of the kind its name belongs to. *)
Definition opens_with_opcode (entry : string * bytes) : bool :=
  match kind_of_entry (fst entry), snd entry with
  | Some e, b :: _ => b =? opcode e
  | _, _ => false
  end.

Definition is_hex_char (c : ascii) : bool :=
  match hex_digit c with
  | Some _ => true
  | None => false
  end.

(** A string of hexadecimal digits only. *)
Definition is_hex (s : string) : bool :=
  forallb is_hex_char (list_ascii_of_string s).

(** The bytes of a run of hexadecimal digits taken two at a time. *)
Fixpoint hex_pairs (l : list ascii) : bytes :=
  match l with
  | c :: d :: rest =>
      match hex_digit c, hex_digit d with
      | Some top, Some bot => (16 * top + bot) :: hex_pairs rest
      | _, _ => []
      end
  | _ => []
  end.

(** A hex prefix of 66 digits, one byte more than the destination holds. *)
Definition long_prefix : string :=
  "0123456789AB" ++ str_repeat "0"%char 54.

(** ** Formatting the Swift fixture *)

(** The upper-case hexadecimal digit of a value in [0, 16). *)
Definition hex_upper (d : Z) : ascii :=
  ascii_of_N (Z.to_N (if d <? 10 then 48 + d else 55 + d)).

(** The hexadecimal digits of a non-negative integer, most significant
    first: a single ["0"] for zero. *)
Definition hex_of (n : Z) : list ascii :=
  let k := Z.to_nat (Z.log2 n / 4 + 1) in
  map (fun i => hex_upper ((n / 16 ^ Z.of_nat i) mod 16)) (rev (seq 0 k)).

(** [f'{b:02X}']: upper-case hexadecimal, sign first, zero-padded to a
    width of two. *)
Definition format_02X (b : Z) : string :=
  let ds := hex_of (Z.abs b) in
  string_of_list_ascii
    (if b <? 0 then "-"%char :: ds
     else repeat "0"%char (2 - List.length ds) ++ ds).

(** Convert bytes to Swift Data literal. *)
Definition to_swift_data (name : string) (data : bytes) : string :=
  let hex_bytes :=
    String.concat ", " (map (fun b => "0x" ++ format_02X b)%string data) in
  ("    static let " ++ name ++ " = Data([" ++ hex_bytes ++ "])")%string.

(** ** Standard output and standard error *)

(** What has been printed so far, a line per [print] call. *)
Record Console : Type := mkConsole {
  stdout : list string;
  stderr : list string
}.

(** A computation that may print: what it printed stays printed when it
    raises. *)
Definition IO (A : Type) : Type := World -> Console -> res A * Console.

Definition io_ret {A : Type} (a : A) : IO A := fun _ c => (Ok a, c).

Definition io_bind {A B : Type} (m : IO A) (k : A -> IO B) : IO B :=
  fun w c => match m w c with
             | (Ok a, c') => k a w c'
             | (Raise e, c') => (Raise e, c')
             end.

Definition run_py {A : Type} (m : Py A) : IO A := fun w c => (m w, c).

(** [print(line)]. *)
Definition print (line : string) : IO unit :=
  fun _ c => (Ok tt, mkConsole (stdout c ++ [line]) (stderr c)).

(** [print(line, file=sys.stderr)]. *)
Definition print_stderr (line : string) : IO unit :=
  fun _ c => (Ok tt, mkConsole (stdout c) (stderr c ++ [line])).

Notation "x <~ m ;; k" := (io_bind m (fun x => k))
  (at level 100, m at next level, right associativity).

Notation "m ;;; k" := (io_bind m (fun _ => k))
  (at level 100, right associativity).

(** [for name, data in items: print(to_swift_data(name, data))]. *)
Fixpoint print_items (items : dict) : IO unit :=
  match items with
  | [] => io_ret tt
  | (name, data) :: items' =>
      print (to_swift_data name data) ;;; print_items items'
  end.

(** ** The cayennelpp library

    The [LppFrame] class of the library, which the script imports when it
    is installed: a constructor, the six [add_*] methods the script calls
    and [bytes()].  A method that updates the frame returns the updated
    frame. *)
Record LppLibrary : Type := mkLppLibrary {
  LppFrame : Type;
  LppFrame_new : Py LppFrame;
  add_temperature : LppFrame -> Z -> float -> Py LppFrame;
  add_humidity : LppFrame -> Z -> float -> Py LppFrame;
  add_analog_input : LppFrame -> Z -> float -> Py LppFrame;
  add_gps : LppFrame -> Z -> float -> float -> float -> Py LppFrame;
  add_barometric_pressure : LppFrame -> Z -> float -> Py LppFrame;
  add_accelerometer : LppFrame -> Z -> float -> float -> float -> Py LppFrame;
  frame_bytes : LppFrame -> Py (list Z)
}.

(** The body of [generate_lpp_references] once the import has succeeded. *)
Definition generate_lpp_references_with (lib : LppLibrary) : Py dict :=
  let references : dict := [] in
  (* Temperature 25.5 C on channel 1 *)
  frame <- LppFrame_new lib ;;
  frame <- add_temperature lib frame 1 25.5%float ;;
  bs <- frame_bytes lib frame ;;
  references <- assign references "lpp_temperature_25_5" (bytes_lit bs) ;;
  (* Humidity 65% on channel 2 *)
  frame <- LppFrame_new lib ;;
  frame <- add_humidity lib frame 2 65.0%float ;;
  bs <- frame_bytes lib frame ;;
  references <- assign references "lpp_humidity_65" (bytes_lit bs) ;;
  (* Analog input 3.3 on channel 3 *)
  frame <- LppFrame_new lib ;;
  frame <- add_analog_input lib frame 3 3.3%float ;;
  bs <- frame_bytes lib frame ;;
  references <- assign references "lpp_analog_3_3" (bytes_lit bs) ;;
  (* GPS coordinates *)
  frame <- LppFrame_new lib ;;
  frame <- add_gps lib frame 4 37.7749%float (-122.4194)%float 10.0%float ;;
  bs <- frame_bytes lib frame ;;
  references <- assign references "lpp_gps_sf" (bytes_lit bs) ;;
  (* Barometer 1013.25 hPa *)
  frame <- LppFrame_new lib ;;
  frame <- add_barometric_pressure lib frame 5 1013.25%float ;;
  bs <- frame_bytes lib frame ;;
  references <- assign references "lpp_barometer_1013" (bytes_lit bs) ;;
  (* Accelerometer *)
  frame <- LppFrame_new lib ;;
  frame <- add_accelerometer lib frame 6 0.0%float 0.0%float 1.0%float ;;
  bs <- frame_bytes lib frame ;;
  references <- assign references "lpp_accelerometer_1g" (bytes_lit bs) ;;
  ret references.

(** Generate reference bytes using cayennelpp library; [cayennelpp] is
    [None] when the import raises [ImportError]. *)
Definition generate_lpp_references (cayennelpp : option LppLibrary)
  : IO dict :=
  match cayennelpp with
  | None =>
      print_stderr
        "// cayennelpp not installed, LPP references generated manually" ;;;
      run_py generate_lpp_references_manual
  | Some lib => run_py (generate_lpp_references_with lib)
  end.

Definition main (cayennelpp : option LppLibrary) : IO unit :=
  print "// Auto-generated by generate_reference_bytes.py" ;;;
  print "// DO NOT EDIT - regenerate with: python3 Scripts/generate_reference_bytes.py" ;;;
  print "import Foundation" ;;;
  print "" ;;;
  print "/// Reference bytes generated from meshcore_py Python library" ;;;
  print "enum PythonReferenceBytes {" ;;;
  print "" ;;;
  print "    // MARK: - PacketBuilder References" ;;;
  print "" ;;;
  references <~ run_py generate_packet_builder_references ;;
  print_items references ;;;
  print "" ;;;
  print "    // MARK: - LPP References (from cayennelpp)" ;;;
  print "" ;;;
  references <~ generate_lpp_references cayennelpp ;;
  print_items references ;;;
  print "}".

(** A console on which nothing has been printed. *)
Definition blank : Console := mkConsole [] [].

(** The lines [main] prints before it turns to the LPP references. *)
Definition preamble : list string :=
  [ "// Auto-generated by generate_reference_bytes.py";
    "// DO NOT EDIT - regenerate with: python3 Scripts/generate_reference_bytes.py";
    "import Foundation";
    "";
    "/// Reference bytes generated from meshcore_py Python library";
    "enum PythonReferenceBytes {";
    "";
    "    // MARK: - PacketBuilder References";
    "" ]
  ++ map (fun entry => to_swift_data (fst entry) (snd entry))
         packet_builder_references
  ++ [ "";
       "    // MARK: - LPP References (from cayennelpp)";
       "" ].

(** A library whose entries hold the channel and type bytes only, to run
    the branch of [generate_lpp_references] that uses the import. *)
Definition header_only_lpp : LppLibrary :=
  {| LppFrame := bytes;
     LppFrame_new := ret [];
     add_temperature := fun frame ch _ => ret (frame ++ [ch; 0x67]);
     add_humidity := fun frame ch _ => ret (frame ++ [ch; 0x68]);
     add_analog_input := fun frame ch _ => ret (frame ++ [ch; 0x02]);
     add_gps := fun frame ch _ _ _ => ret (frame ++ [ch; 0x88]);
     add_barometric_pressure := fun frame ch _ => ret (frame ++ [ch; 0x73]);
     add_accelerometer := fun frame ch _ _ _ => ret (frame ++ [ch; 0x71]);
     frame_bytes := fun frame => ret frame |}.

(** A library whose constructor raises. *)
Definition broken_lpp : LppLibrary :=
  {| LppFrame := bytes;
     LppFrame_new := fun _ => Raise ValueError;
     add_temperature := fun frame _ _ => ret frame;
     add_humidity := fun frame _ _ => ret frame;
     add_analog_input := fun frame _ _ => ret frame;
     add_gps := fun frame _ _ _ _ => ret frame;
     add_barometric_pressure := fun frame _ _ => ret frame;
     add_accelerometer := fun frame _ _ _ _ => ret frame;
     frame_bytes := fun frame => ret frame |}.

(** ** Reading values and fixture lines back *)

(** The two's-complement reading of an unsigned [len]-byte value. *)
Definition signed_value (len : nat) (v : Z) : Z :=
  if 2 * v <? 2 ^ (8 * Z.of_nat len) then v else v - 2 ^ (8 * Z.of_nat len).

Fixpoint strip_prefix (p l : list ascii) : option (list ascii) :=
  match p, l with
  | [], _ => Some l
  | _ :: _, [] => None
  | a :: p', b :: l' => if Ascii.eqb a b then strip_prefix p' l' else None
  end.

(** The characters before the first space, and those after it. *)
Fixpoint split_at_space (l : list ascii) : list ascii * list ascii :=
  match l with
  | [] => ([], [])
  | c :: rest =>
      if Ascii.eqb c " " then ([], rest)
      else let (word, rest') := split_at_space rest in (c :: word, rest')
  end.

Definition closes (l : list ascii) : bool :=
  match l with
  | [a; b] => Ascii.eqb a "]" && Ascii.eqb b ")"
  | _ => false
  end.

(** The bytes of ["0xHH, 0xHH, ... ])"]. *)
Fixpoint read_items (l : list ascii) : option bytes :=
  match l with
  | a :: b :: c :: d :: rest =>
      if Ascii.eqb a "0" && Ascii.eqb b "x" then
        match hex_digit c, hex_digit d with
        | Some top, Some bot =>
            match rest with
            | e :: f :: rest' =>
                if Ascii.eqb e "," && Ascii.eqb f " " then
                  option_map (cons (16 * top + bot)) (read_items rest')
                else if closes rest then Some [16 * top + bot]
                else None
            | _ => None
            end
        | _, _ => None
        end
      else None
  | _ => if closes l then Some [] else None
  end.

(** The name and the bytes of a line written by [to_swift_data]. *)
Definition parse_swift_data (line : string) : option (string * bytes) :=
  match strip_prefix (list_ascii_of_string "    static let ")
                     (list_ascii_of_string line) with
  | None => None
  | Some rest =>
      let (name, rest') := split_at_space rest in
      match strip_prefix (list_ascii_of_string "= Data([") rest' with
      | None => None
      | Some items =>
          option_map (fun data => (string_of_list_ascii name, data))
                     (read_items items)
      end
  end.

(** A name without a space in it. *)
Definition has_no_space (s : string) : bool :=
  forallb (fun c => negb (Ascii.eqb c " ")) (list_ascii_of_string s).

Definition is_ident_start (c : ascii) : bool :=
  let n := N_of_ascii c in
  ((65 <=? n)%N && (n <=? 90)%N) || ((97 <=? n)%N && (n <=? 122)%N)
  || (n =? 95)%N.

Definition is_ident_char (c : ascii) : bool :=
  let n := N_of_ascii c in
  is_ident_start c || ((48 <=? n)%N && (n <=? 57)%N).

(** A name that can follow [static let]: a letter or underscore, then
    letters, digits and underscores. *)
Definition is_identifier (s : string) : bool :=
  match list_ascii_of_string s with
  | [] => false
  | c :: rest => is_ident_start c && forallb is_ident_char rest
  end.

Fixpoint nodupb (l : list string) : bool :=
  match l with
  | [] => true
  | s :: l' => negb (existsb (String.eqb s) l') && nodupb l'
  end.

(** ** The other LPP layouts written beside the literals *)

(** [value(int16 BE, *10)] after [channel] and type [0x67]. *)
Definition lpp_temperature (channel : Z) (celsius : Q) : res bytes :=
  bytes_lit [channel; 0x67]
    +++ to_bytes (Qtrunc (celsius * inject_Z 10)%Q) 2 Big true.

(** [value(uint8, *2)] after [channel] and type [0x68]. *)
Definition lpp_humidity (channel : Z) (percent : Q) : res bytes :=
  bytes_lit [channel; 0x68]
    +++ to_bytes (Qtrunc (percent * inject_Z 2)%Q) 1 Big false.

(** [value(int16 BE, *100)] after [channel] and type [0x02]. *)
Definition lpp_analog (channel : Z) (value : Q) : res bytes :=
  bytes_lit [channel; 0x02]
    +++ to_bytes (Qtrunc (value * inject_Z 100)%Q) 2 Big true.

(** [x(int16 BE, *1000) + y(int16 BE, *1000) + z(int16 BE, *1000)] after
    [channel] and type [0x71]. *)
Definition lpp_accelerometer (channel : Z) (x y z : Q) : res bytes :=
  bytes_lit [channel; 0x71]
    +++ to_bytes (Qtrunc (x * inject_Z 1000)%Q) 2 Big true
    +++ to_bytes (Qtrunc (y * inject_Z 1000)%Q) 2 Big true
    +++ to_bytes (Qtrunc (z * inject_Z 1000)%Q) 2 Big true.

(** The name field of setChannel, [name.encode("utf-8").ljust(32, b'\x00')],
    at a given name. *)
Definition channel_name_field (name : string) : bytes :=
  bytes_ljust (str_encode name) 32 0x00.

(** * Properties *)

(** ** Running the generators *)

(** Both generators return, whatever the world they run in. *)
Lemma packet_builder_run (w : World) :
  generate_packet_builder_references w = Ok packet_builder_references.
Proof. vm_compute. reflexivity. Qed.

Lemma lpp_manual_run (w : World) :
  generate_lpp_references_manual w = Ok lpp_references_manual.
Proof. vm_compute. reflexivity. Qed.

Lemma lookup_entry_run (generate : Py dict) (refs : dict) (k : string)
      (w : World) :
  generate w = Ok refs ->
  lookup_entry generate k w = getitem refs k.
Proof.
  intros Hrun. unfold lookup_entry, bind, lift. rewrite Hrun. reflexivity.
Qed.

Ltac run_entry :=
  intros;
  first [ rewrite (lookup_entry_run _ _ _ _ (packet_builder_run _))
        | rewrite (lookup_entry_run _ _ _ _ (lpp_manual_run _)) ];
  vm_compute; reflexivity.

(** The world is observable in the monad: a computation that samples the
    clock differs between two worlds. *)
Lemma datetime_now_depends_on_world :
  datetime_now (mkWorld 0 []) <> datetime_now (mkWorld 1 []).
Proof. unfold datetime_now; simpl. discriminate. Qed.

(** ** setTime *)

(** C1 (as amended): the setTime reference frame for timestamp 1704067200
    is the five bytes 06 80 00 92 65: opcode 0x06 followed by the 4-byte
    little-endian unsigned encoding of 1704067200. *)
Theorem setTime_frame (w : World) :
  lookup_entry generate_packet_builder_references "setTime_1704067200" w
    = Ok [0x06; 0x80; 0x00; 0x92; 0x65]
  /\ to_bytes 1704067200 4 Little false = Ok [0x80; 0x00; 0x92; 0x65]
  /\ le_value [0x80; 0x00; 0x92; 0x65] = 1704067200
  /\ List.length [0x06; 0x80; 0x00; 0x92; 0x65] = 5%nat.
Proof.
  split; [run_entry|]. repeat split; vm_compute; reflexivity.
Qed.

(** C1 (as stated) fails: the entry is not 06 00 AC 65 A5 65, which is six
    bytes and whose last four bytes are not 1704067200 in little-endian. *)
Lemma setTime_frame_not_golden :
  lookup_entry generate_packet_builder_references "setTime_1704067200"
               epoch_world
    = Ok [0x06; 0x80; 0x00; 0x92; 0x65]
  /\ Ok [0x06; 0x80; 0x00; 0x92; 0x65]
       <> Ok [0x06; 0x00; 0xAC; 0x65; 0xA5; 0x65]
  /\ le_value [0xAC; 0x65; 0xA5; 0x65] <> 1704067200.
Proof.
  split; [run_entry|]. split; [discriminate|]. vm_compute. discriminate.
Qed.

(** ** The 32-byte destination *)

(** The value bound to [dst32] in the generator. *)
Lemma dst32_reference :
  dst32_of "0123456789AB"
    = Ok ([0x01; 0x23; 0x45; 0x67; 0x89; 0xAB] ++ repeat 0 26).
Proof. vm_compute. reflexivity. Qed.

(** C10: the 32-byte destination of the sendLogin, sendLogout,
    sendStatusRequest and pathDiscovery reference frames is the 6-byte short
    prefix 01 23 45 67 89 AB followed by 26 zero bytes, and the sendLogout
    frame is the 33 bytes 0x1D, the prefix, 26 zeros. *)
Theorem dst32_is_padded_prefix (w : World) :
  let dst := [0x01; 0x23; 0x45; 0x67; 0x89; 0xAB] in
  let dst32 := dst ++ repeat 0 26 in
  bytes_fromhex "0123456789AB" = Ok dst
  /\ dst32_of "0123456789AB" = Ok dst32
  /\ List.length dst32 = 32%nat
  /\ lookup_entry generate_packet_builder_references "sendLogin" w
       = Ok (0x1A :: dst32 ++ str_encode "secret")
  /\ lookup_entry generate_packet_builder_references "sendLogout" w
       = Ok (0x1D :: dst ++ repeat 0 26)
  /\ lookup_entry generate_packet_builder_references "sendStatusRequest" w
       = Ok (0x1B :: dst32)
  /\ lookup_entry generate_packet_builder_references "pathDiscovery" w
       = Ok (0x34 :: 0x00 :: dst32)
  /\ List.length (0x1D :: dst ++ repeat 0 26) = 33%nat.
Proof.
  cbv zeta.
  repeat match goal with |- _ /\ _ => split end;
    try run_entry; vm_compute; reflexivity.
Qed.

(** ** pathDiscovery *)

(** C2 (as amended): the pathDiscovery frame is the two bytes 0x34 0x00
    followed immediately by the 32-byte zero-padded destination and nothing
    else; it is 34 bytes long, its byte at index 1 is 0x00 and its byte at
    index 2 is the first byte of the destination. *)
Theorem pathDiscovery_frame_layout (w : World) :
  exists frame dst32,
    lookup_entry generate_packet_builder_references "pathDiscovery" w
      = Ok frame
    /\ dst32_of "0123456789AB" = Ok dst32
    /\ frame = [0x34; 0x00] ++ dst32
    /\ List.length dst32 = 32%nat
    /\ List.length frame = 34%nat
    /\ nth_error frame 1 = Some 0x00
    /\ nth_error frame 2 = nth_error dst32 0
    /\ slice frame 2 34 = dst32.
Proof.
  eexists. eexists.
  split; [run_entry|]. split; [apply dst32_reference|].
  repeat split; vm_compute; reflexivity.
Qed.

(** C2 (as stated) fails: the entry has 34 bytes, not 33, and its byte at
    index 1 is 0x00 while the destination starts with 0x01. *)
Lemma pathDiscovery_frame_not_33_bytes :
  exists frame dst32,
    lookup_entry generate_packet_builder_references "pathDiscovery"
                 epoch_world = Ok frame
    /\ dst32_of "0123456789AB" = Ok dst32
    /\ List.length frame <> 33%nat
    /\ nth_error frame 1 <> nth_error dst32 0
    /\ frame <> 0x34 :: dst32.
Proof.
  eexists. eexists.
  split; [run_entry|]. split; [apply dst32_reference|].
  repeat split; vm_compute; discriminate.
Qed.

(** ** LPP entries *)

(** C3 (as amended): the barometric pressure entry is an unsigned 16-bit
    big-endian value scaled by 10 and rounded down, not to nearest: for
    1013.25 on channel 5 the entry of generate_lpp_references_manual is
    05 73 27 94, which carries the value 10132. *)
Theorem lpp_barometer_entry (w : World) :
  lookup_entry generate_lpp_references_manual "lpp_barometer_1013" w
    = Ok [0x05; 0x73; 0x27; 0x94]
  /\ be_value [0x27; 0x94] = 10132
  /\ lpp_barometer Qfloor 5 (101325 # 100) = Ok [0x05; 0x73; 0x27; 0x94]
  /\ lpp_barometer Qtrunc 5 (101325 # 100) = Ok [0x05; 0x73; 0x27; 0x94].
Proof.
  split; [run_entry|]. repeat split; vm_compute; reflexivity.
Qed.

(** C3 (as stated) fails: the entry is not 05 73 27 95, the encoding of the
    reading rounded to nearest, and does not carry 10133. *)
Lemma lpp_barometer_entry_not_rounded :
  lookup_entry generate_lpp_references_manual "lpp_barometer_1013"
               epoch_world
    = Ok [0x05; 0x73; 0x27; 0x94]
  /\ lpp_barometer Qround_nearest 5 (101325 # 100)
       = Ok [0x05; 0x73; 0x27; 0x95]
  /\ Ok [0x05; 0x73; 0x27; 0x94] <> Ok [0x05; 0x73; 0x27; 0x95]
  /\ be_value [0x27; 0x94] <> 10133.
Proof.
  split; [run_entry|]. split; [vm_compute; reflexivity|].
  split; [discriminate|]. vm_compute. discriminate.
Qed.

(** C4: the LPP GPS entry for channel 4, latitude 37.7749, longitude
    -122.4194 and altitude 10.0 is the 11 bytes
    04 88 05 C3 95 ED 51 FE 00 03 E8: channel, type 0x88, then latitude
    x10000, longitude x10000 and altitude x100, each a 3-byte big-endian
    two's-complement integer; the 'lpp_gps_sf' entry equals these bytes. *)
Theorem lpp_gps_entry (w : World) :
  let golden := [0x04; 0x88; 0x05; 0xC3; 0x95; 0xED; 0x51; 0xFE;
                 0x00; 0x03; 0xE8] in
  lookup_entry generate_lpp_references_manual "lpp_gps_sf" w = Ok golden
  /\ List.length golden = 11%nat
  /\ lpp_gps 4 (377749 # 10000) (- (1224194 # 10000)) (10 # 1) = Ok golden
  /\ to_bytes 377749 3 Big true = Ok (slice golden 2 5)
  /\ to_bytes (-1224194) 3 Big true = Ok (slice golden 5 8)
  /\ to_bytes 1000 3 Big true = Ok (slice golden 8 11).
Proof.
  cbv zeta. split; [run_entry|]. repeat split; vm_compute; reflexivity.
Qed.

(** ** setChannel *)

(** C5: the setChannel frame for index 0, name "General" and the secret
    00..0F is 20 00, then the UTF-8 bytes of "General" right-padded with
    zero bytes to exactly 32 bytes, then the 16 secret bytes unchanged: 50
    bytes in all. *)
Theorem setChannel_frame (w : World) :
  exists frame,
    lookup_entry generate_packet_builder_references "setChannel_0_General" w
      = Ok frame
    /\ frame = [0x20; 0x00]
                 ++ (str_encode "General" ++ repeat 0 25)
                 ++ py_range 16
    /\ str_encode "General" = [0x47; 0x65; 0x6E; 0x65; 0x72; 0x61; 0x6C]
    /\ List.length (slice frame 2 34) = 32%nat
    /\ slice frame 2 34 = bytes_ljust (str_encode "General") 32 0
    /\ slice frame 34 50
         = [0; 1; 2; 3; 4; 5; 6; 7; 8; 9; 10; 11; 12; 13; 14; 15]
    /\ List.length frame = 50%nat.
Proof.
  eexists. split; [run_entry|]. repeat split; vm_compute; reflexivity.
Qed.

(** ** Destinations of any prefix *)

Lemma hex_char_not_space (c : ascii) :
  is_hex_char c = true -> is_space c = false.
Proof.
  destruct c as [[] [] [] [] [] [] [] []]; vm_compute; congruence.
Qed.

Lemma hex_char_not_continuation (c : ascii) :
  is_hex_char c = true -> is_continuation c = false.
Proof.
  destruct c as [[] [] [] [] [] [] [] []]; vm_compute; congruence.
Qed.

Lemma chars_app (s1 s2 : string) :
  list_ascii_of_string (s1 ++ s2)
    = list_ascii_of_string s1 ++ list_ascii_of_string s2.
Proof. induction s1 as [|c s1 IH]; simpl; [|rewrite IH]; reflexivity. Qed.

Lemma chars_repeat (c : ascii) (n : nat) :
  list_ascii_of_string (str_repeat c n) = repeat c n.
Proof. induction n as [|n IH]; simpl; [|rewrite IH]; reflexivity. Qed.

Lemma chars_length (s : string) :
  List.length (list_ascii_of_string s) = String.length s.
Proof. induction s as [|c s IH]; simpl; [|rewrite IH]; reflexivity. Qed.

(** On hexadecimal digits the number of code points is the number of
    characters. *)
Lemma str_len_hex (s : string) :
  is_hex s = true -> str_len s = String.length s.
Proof.
  unfold is_hex, str_len.
  induction s as [|c s IH]; simpl; [reflexivity|].
  intros [Hc Hs]%andb_prop.
  rewrite (hex_char_not_continuation c Hc). simpl.
  rewrite (IH Hs). reflexivity.
Qed.

(** [fromhex] on an even run of digits is the run read two at a time. *)
Lemma fromhex_hex_pairs (n : nat) :
  forall l,
    List.length l = (2 * n)%nat ->
    forallb is_hex_char l = true ->
    fromhex_chars l = Ok (hex_pairs l)
    /\ List.length (hex_pairs l) = n.
Proof.
  induction n as [|n IH]; intros l Hlen Hhex.
  - destruct l; [split; reflexivity | discriminate].
  - destruct l as [|c [|d rest]]; try (simpl in Hlen; lia).
    simpl in Hhex.
    apply andb_prop in Hhex as [Hc Hhex].
    apply andb_prop in Hhex as [Hd Hrest].
    assert (Hlen' : List.length rest = (2 * n)%nat) by (simpl in Hlen; lia).
    destruct (IH rest Hlen' Hrest) as [Hrun Hsize].
    simpl. rewrite (hex_char_not_space c Hc).
    unfold is_hex_char in Hc, Hd.
    destruct (hex_digit c) as [top|]; [|discriminate].
    destruct (hex_digit d) as [bot|]; [|discriminate].
    rewrite Hrun. simpl. rewrite Hsize. split; reflexivity.
Qed.

Lemma hex_pairs_app (n : nat) :
  forall l1 l2,
    List.length l1 = (2 * n)%nat ->
    forallb is_hex_char l1 = true ->
    hex_pairs (l1 ++ l2) = hex_pairs l1 ++ hex_pairs l2.
Proof.
  induction n as [|n IH]; intros l1 l2 Hlen Hhex.
  - destruct l1; [reflexivity | discriminate].
  - destruct l1 as [|c [|d rest]]; try (simpl in Hlen; lia).
    simpl in Hhex.
    apply andb_prop in Hhex as [Hc Hhex].
    apply andb_prop in Hhex as [Hd Hrest].
    assert (Hlen' : List.length rest = (2 * n)%nat) by (simpl in Hlen; lia).
    unfold is_hex_char in Hc, Hd. simpl.
    destruct (hex_digit c) as [top|]; [|discriminate].
    destruct (hex_digit d) as [bot|]; [|discriminate].
    rewrite (IH rest l2 Hlen' Hrest). reflexivity.
Qed.

Lemma hex_pairs_zeros (k : nat) :
  hex_pairs (repeat "0"%char (2 * k)) = repeat 0 k.
Proof.
  induction k as [|k IH]; [reflexivity|].
  replace (2 * S k)%nat with (S (S (2 * k))) by lia.
  cbn [repeat hex_pairs]. rewrite IH. reflexivity.
Qed.

Lemma forallb_repeat {A : Type} (f : A -> bool) (a : A) (n : nat) :
  f a = true -> forallb f (repeat a n) = true.
Proof. intros Ha. induction n as [|n IH]; simpl; [|rewrite Ha, IH]; reflexivity. Qed.

Lemma firstn_exact {A : Type} (l1 l2 : list A) :
  firstn (List.length l1) (l1 ++ l2) = l1.
Proof. induction l1 as [|a l1 IH]; simpl; [|rewrite IH]; reflexivity. Qed.

(** The parity padding of a prefix: one more digit when it has an odd
    number of them. *)
Lemma padding_split (n : nat) :
  (n <= 64)%nat ->
  let r := if Nat.even n then 0%nat else 1%nat in
  exists k m,
    (n + r = 2 * m)%nat /\ (64 - n = r + 2 * k)%nat /\ (m + k = 32)%nat.
Proof.
  intros Hn r. subst r.
  destruct (Nat.even n) eqn:Hpar.
  - apply Nat.even_spec in Hpar as [m ->].
    exists (32 - m)%nat, m. lia.
  - assert (Hodd : Nat.odd n = true)
      by (rewrite <- Nat.negb_even, Hpar; reflexivity).
    apply Nat.odd_spec in Hodd as [m ->].
    exists (32 - (m + 1))%nat, (m + 1)%nat. lia.
Qed.

(** The destination of a prefix of at most 64 hexadecimal digits: the bytes
    of the prefix, then zeros up to 32 bytes. *)
Lemma dst32_of_hex_prefix (prefix : string) :
  is_hex prefix = true ->
  (String.length prefix <= 64)%nat ->
  let odd_digit :=
    if Nat.even (String.length prefix) then ""%string else "0"%string in
  exists p,
    bytes_fromhex (prefix ++ odd_digit) = Ok p
    /\ dst32_of prefix = Ok (p ++ repeat 0 (32 - List.length p))
    /\ List.length (p ++ repeat 0 (32 - List.length p)) = 32%nat.
Proof.
  intros Hhex Hlen odd_digit.
  destruct (padding_split _ Hlen) as (k & m & Hm & Hk & Hmk).
  cbv zeta in Hm, Hk.
  set (r := if Nat.even (String.length prefix) then 0%nat else 1%nat) in *.
  assert (Htail : list_ascii_of_string odd_digit = repeat "0"%char r).
  { subst odd_digit r. destruct (Nat.even _); reflexivity. }
  set (l1 := list_ascii_of_string prefix ++ repeat "0"%char r).
  assert (Hl1 : List.length l1 = (2 * m)%nat).
  { subst l1. rewrite length_app, chars_length, repeat_length. lia. }
  assert (Hh1 : forallb is_hex_char l1 = true).
  { subst l1. rewrite forallb_app. apply andb_true_intro. split.
    - exact Hhex.
    - apply forallb_repeat. reflexivity. }
  destruct (fromhex_hex_pairs m l1 Hl1 Hh1) as [Hrun1 Hsize1].
  exists (hex_pairs l1).
  assert (Hpad : (32 - List.length (hex_pairs l1) = k)%nat) by lia.
  rewrite Hpad.
  split; [|split].
  - unfold bytes_fromhex. rewrite chars_app, Htail. exact Hrun1.
  - unfold dst32_of, bytes_fromhex, str_ljust.
    rewrite chars_app, chars_repeat, (str_len_hex _ Hhex), Hk.
    rewrite repeat_app, app_assoc. fold l1.
    assert (Hl : List.length (l1 ++ repeat "0"%char (2 * k))
                 = (2 * (m + k))%nat).
    { rewrite length_app, repeat_length. lia. }
    assert (Hh : forallb is_hex_char (l1 ++ repeat "0"%char (2 * k)) = true).
    { rewrite forallb_app, Hh1. apply forallb_repeat. reflexivity. }
    destruct (fromhex_hex_pairs _ _ Hl Hh) as [Hrun _].
    rewrite Hrun, (hex_pairs_app m l1 _ Hl1 Hh1), hex_pairs_zeros.
    reflexivity.
  - rewrite length_app, repeat_length. lia.
Qed.

(** C6: for every command that uses the 32-byte destination form
    (sendLogin, sendLogout, sendStatusRequest, pathDiscovery), the
    destination field of the frame occupies exactly 32 bytes, the bytes of
    the prefix zero-padded on the right, whatever the length of the prefix
    supplied, among the prefixes the field can hold: up to 64 hexadecimal
    digits, 32 bytes. *)
Theorem dst32_field_is_32_bytes (prefix : string) :
  is_hex prefix = true ->
  (String.length prefix <= 64)%nat ->
  exists p dst32,
    bytes_fromhex
      (prefix ++ (if Nat.even (String.length prefix) then "" else "0"))%string
      = Ok p
    /\ dst32_of prefix = Ok dst32
    /\ dst32 = p ++ repeat 0 (32 - List.length p)
    /\ List.length dst32 = 32%nat
    /\ (exists f, sendLogin_frame dst32 = Ok f /\ slice f 1 33 = dst32)
    /\ (exists f, sendLogout_frame dst32 = Ok f /\ slice f 1 33 = dst32
                  /\ List.length f = 33%nat)
    /\ (exists f, sendStatusRequest_frame dst32 = Ok f
                  /\ slice f 1 33 = dst32 /\ List.length f = 33%nat)
    /\ (exists f, pathDiscovery_frame dst32 = Ok f /\ slice f 2 34 = dst32
                  /\ List.length f = 34%nat).
Proof.
  intros Hhex Hlen.
  destruct (dst32_of_hex_prefix prefix Hhex Hlen) as (p & Hp & Hdst & Hsize).
  exists p, (p ++ repeat 0 (32 - List.length p)).
  set (dst32 := p ++ repeat 0 (32 - List.length p)) in *.
  assert (Hfield : forall rest, firstn 32 (dst32 ++ rest) = dst32).
  { intros rest. rewrite <- Hsize. apply firstn_exact. }
  repeat match goal with |- _ /\ _ => split end; try assumption;
    try reflexivity.
  - exists (0x1A :: dst32 ++ str_encode "secret").
    split; [reflexivity | apply Hfield].
  - exists (0x1D :: dst32). split; [reflexivity|]. split.
    + rewrite <- (app_nil_r dst32) at 1. apply Hfield.
    + simpl. rewrite Hsize. reflexivity.
  - exists (0x1B :: dst32). split; [reflexivity|]. split.
    + rewrite <- (app_nil_r dst32) at 1. apply Hfield.
    + simpl. rewrite Hsize. reflexivity.
  - exists (0x34 :: 0x00 :: dst32). split; [reflexivity|]. split.
    + rewrite <- (app_nil_r dst32) at 1. apply Hfield.
    + simpl. rewrite Hsize. reflexivity.
Qed.

(** The field for the six-byte prefix the script uses. *)
Lemma dst32_field_is_32_bytes_witness :
  (exists p dst32,
      bytes_fromhex "0123456789AB" = Ok p
      /\ dst32_of "0123456789AB" = Ok dst32
      /\ dst32 = p ++ repeat 0 (32 - List.length p)
      /\ List.length dst32 = 32%nat
      /\ (exists f, sendLogin_frame dst32 = Ok f /\ slice f 1 33 = dst32)
      /\ (exists f, sendLogout_frame dst32 = Ok f /\ slice f 1 33 = dst32
                    /\ List.length f = 33%nat)
      /\ (exists f, sendStatusRequest_frame dst32 = Ok f
                    /\ slice f 1 33 = dst32 /\ List.length f = 33%nat)
      /\ (exists f, pathDiscovery_frame dst32 = Ok f /\ slice f 2 34 = dst32
                    /\ List.length f = 34%nat)).
Proof.
  apply (dst32_field_is_32_bytes "0123456789AB").
  - reflexivity.
  - simpl. lia.
Defined.

(** ** Determinism *)

(** C7: encoding is deterministic: the two generators return the same
    mapping of names to bytes in every world they are run in, whatever the
    clock and the entropy there, and so does every entry read from them;
    the runs return and do not raise. *)
Theorem generators_deterministic (w1 w2 : World) :
  generate_packet_builder_references w1
    = generate_packet_builder_references w2
  /\ generate_lpp_references_manual w1 = generate_lpp_references_manual w2
  /\ (forall k,
         lookup_entry generate_packet_builder_references k w1
           = lookup_entry generate_packet_builder_references k w2)
  /\ (forall k,
         lookup_entry generate_lpp_references_manual k w1
           = lookup_entry generate_lpp_references_manual k w2)
  /\ (exists refs, generate_packet_builder_references w1 = Ok refs
                   /\ List.length refs = 31%nat)
  /\ (exists refs, generate_lpp_references_manual w1 = Ok refs
                   /\ List.length refs = 6%nat).
Proof.
  repeat match goal with |- _ /\ _ => split end.
  - rewrite !packet_builder_run. reflexivity.
  - rewrite !lpp_manual_run. reflexivity.
  - intros k.
    rewrite !(lookup_entry_run _ _ _ _ (packet_builder_run _)). reflexivity.
  - intros k.
    rewrite !(lookup_entry_run _ _ _ _ (lpp_manual_run _)). reflexivity.
  - exists packet_builder_references. split; [apply packet_builder_run|].
    reflexivity.
  - exists lpp_references_manual. split; [apply lpp_manual_run|].
    reflexivity.
Qed.

(** ** Registry lookup *)

Lemma lookup_in_unknown (table : list LayoutEntry) (id : string) :
  ~ In id (map kind_id table) -> lookup_in table id = inl UnknownKind.
Proof.
  intros Hout. unfold lookup_in.
  destruct (find _ table) as [e|] eqn:Hfind; [|reflexivity].
  apply find_some in Hfind as [Hin Heq].
  apply String.eqb_eq in Heq. exfalso. apply Hout.
  rewrite <- Heq. apply in_map. exact Hin.
Qed.

Lemma lookup_in_known (table : list LayoutEntry) (id : string) :
  In id (map kind_id table) ->
  exists e, lookup_in table id = inr e /\ kind_id e = id /\ In e table.
Proof.
  intros Hin. unfold lookup_in.
  destruct (find _ table) as [e|] eqn:Hfind.
  - apply find_some in Hfind as [He Heq].
    apply String.eqb_eq in Heq. exists e. repeat split; assumption.
  - apply in_map_iff in Hin as (e & Hid & He).
    pose proof (find_none _ _ Hfind e He) as Hneq. cbv beta in Hneq.
    rewrite Hid, String.eqb_refl in Hneq. discriminate.
Qed.

(** C8: an identifier outside the registry makes the lookup, and the
    encoding built on it, fail with [UnknownKind], a returned error and not
    a byte sequence; an identifier of the registry is found by exact match:
    the entry returned carries that very identifier. *)
Theorem unknown_kind_outside_registry
        (Args : Type) (encode_fields : LayoutEntry -> Args -> CodecError + bytes)
        (id : string) (args : Args) :
  (~ In id (map kind_id layout_registry) ->
   registry_lookup id = inl UnknownKind
   /\ encode Args encode_fields id args = inl UnknownKind)
  /\ (In id (map kind_id layout_registry) ->
      exists e,
        registry_lookup id = inr e
        /\ kind_id e = id
        /\ In e layout_registry
        /\ encode Args encode_fields id args = encode_fields e args).
Proof.
  split.
  - intros Hout. unfold encode, registry_lookup.
    rewrite (lookup_in_unknown _ _ Hout). split; reflexivity.
  - intros Hin. unfold encode, registry_lookup.
    destruct (lookup_in_known _ _ Hin) as (e & Hfound & Hid & He).
    exists e. rewrite Hfound. repeat split; assumption.
Qed.

(** A name that only starts like a kind is unknown; a kind is found. *)
Lemma unknown_kind_outside_registry_witness :
  (registry_lookup "setTime_1704067200" = inl UnknownKind
   /\ encode unit (fun _ _ => inr [0x06]) "setTime_1704067200" tt
        = inl UnknownKind)
  /\ (exists e,
         registry_lookup "setTime" = inr e
         /\ kind_id e = "setTime"
         /\ In e layout_registry
         /\ encode unit (fun _ _ => inr [0x06]) "setTime" tt = inr [0x06]).
Proof.
  split.
  - apply (unknown_kind_outside_registry
             unit (fun _ _ => inr [0x06]) "setTime_1704067200" tt).
    intros Hin. vm_compute in Hin. intuition discriminate.
  - apply (unknown_kind_outside_registry
             unit (fun _ _ => inr [0x06]) "setTime" tt).
    vm_compute. tauto.
Defined.

(** ** Opcodes *)

Lemma opens_with_opcode_spec (entry : string * bytes) :
  opens_with_opcode entry = true ->
  snd entry <> []
  /\ exists e, kind_of_entry (fst entry) = Some e
               /\ hd_error (snd entry) = Some (opcode e).
Proof.
  unfold opens_with_opcode.
  destruct (kind_of_entry (fst entry)) as [e|]; [|discriminate].
  destruct (snd entry) as [|b frame]; [discriminate|].
  intros Hb%Z.eqb_eq. split; [discriminate|].
  exists e. split; [reflexivity|]. simpl. rewrite Hb. reflexivity.
Qed.

(** C9: every command reference frame of generate_packet_builder_references
    is non-empty and its first byte is the opcode of its command kind (0x01
    for appStart, 0x16 for deviceQuery, ..., 0x24 for sendTrace); no entry
    is the empty byte sequence. *)
Theorem frames_open_with_opcode (w : World) :
  exists refs,
    generate_packet_builder_references w = Ok refs
    /\ Forall (fun entry =>
                 snd entry <> []
                 /\ exists e, kind_of_entry (fst entry) = Some e
                              /\ hd_error (snd entry) = Some (opcode e))
              refs
    /\ map (fun entry => option_map kind_id (kind_of_entry (fst entry))) refs
       = map Some
           [ "appStart"; "deviceQuery"; "getBattery"; "getTime"; "setTime";
             "setName"; "setCoords"; "setTxPower"; "setRadio";
             "sendAdvertisement"; "sendAdvertisement"; "reboot";
             "getContacts"; "getMessage"; "sendMessage"; "sendCommand";
             "sendChannelMessage"; "sendLogin"; "sendLogout";
             "sendStatusRequest"; "getChannel"; "setChannel"; "getStats";
             "getStats"; "getStats"; "getSelfTelemetry"; "exportPrivateKey";
             "signStart"; "signFinish"; "pathDiscovery"; "sendTrace" ]
    /\ map (fun entry => hd_error (snd entry)) refs
       = map Some
           [ 0x01; 0x16; 0x14; 0x05; 0x06; 0x08; 0x0E; 0x0C; 0x0B; 0x07;
             0x07; 0x13; 0x04; 0x0A; 0x02; 0x02; 0x03; 0x1A; 0x1D; 0x1B;
             0x1F; 0x20; 0x38; 0x38; 0x38; 0x27; 0x17; 0x21; 0x23; 0x34;
             0x24 ].
Proof.
  exists packet_builder_references.
  split; [apply packet_builder_run|]. split; [|split].
  - apply Forall_forall. intros entry Hin.
    apply opens_with_opcode_spec.
    assert (Hall : forallb opens_with_opcode packet_builder_references = true)
      by (vm_compute; reflexivity).
    rewrite forallb_forall in Hall. apply Hall. exact Hin.
  - vm_compute. reflexivity.
  - vm_compute. reflexivity.
Qed.

(** * Further properties of the script's building blocks *)

(** ** int.to_bytes *)

Lemma le_digits_length (len : nat) (n : Z) :
  List.length (le_digits len n) = len.
Proof.
  revert n. induction len as [|len IH]; intros n; simpl;
    [|rewrite IH]; reflexivity.
Qed.

Lemma le_digits_bytes (len : nat) (n : Z) :
  forallb is_byte (le_digits len n) = true.
Proof.
  revert n. induction len as [|len IH]; intros n; simpl; [reflexivity|].
  rewrite IH, andb_true_r. unfold is_byte.
  pose proof (Z.mod_pos_bound n 256 ltac:(lia)).
  apply andb_true_intro. split; [apply Z.leb_le | apply Z.ltb_lt]; lia.
Qed.

Lemma le_value_cons (b : Z) (bs : bytes) :
  le_value (b :: bs) = b + 256 * le_value bs.
Proof.
  unfold le_value, be_value. simpl rev. rewrite fold_left_app. simpl. lia.
Qed.

Lemma le_value_digits (len : nat) (n : Z) :
  le_value (le_digits len n) = n mod 256 ^ Z.of_nat len.
Proof.
  revert n. induction len as [|len IH]; intros n.
  - simpl. rewrite Z.mod_1_r. reflexivity.
  - cbn [le_digits]. rewrite le_value_cons, IH.
    rewrite Nat2Z.inj_succ, Z.pow_succ_r by lia.
    rewrite Z.rem_mul_r by lia. reflexivity.
Qed.

Lemma bits_pow (len : nat) : 2 ^ (8 * Z.of_nat len) = 256 ^ Z.of_nat len.
Proof. rewrite Z.pow_mul_r by lia. reflexivity. Qed.

Lemma forallb_rev {A : Type} (f : A -> bool) (l : list A) :
  forallb f (rev l) = forallb f l.
Proof.
  induction l as [|a l IH]; simpl; [reflexivity|].
  rewrite forallb_app, IH. simpl. rewrite andb_true_r. apply andb_comm.
Qed.

(** What [to_bytes] returns, when it returns. *)
Lemma to_bytes_ok (n : Z) (len : nat) (order : ByteOrder) (signed : bool)
      (bs : bytes) :
  to_bytes n len order signed = Ok bs ->
  List.length bs = len
  /\ forallb is_byte bs = true
  /\ match order with Little => le_value bs | Big => be_value bs end
     = n mod 256 ^ Z.of_nat len.
Proof.
  unfold to_bytes. rewrite bits_pow.
  destruct (if signed then _ else _); [|discriminate].
  intros [= <-]. destruct order.
  - rewrite le_digits_length, le_digits_bytes, le_value_digits.
    rewrite Z.mod_mod by (apply Z.pow_nonzero; lia). repeat split.
  - rewrite length_rev, forallb_rev, le_digits_length, le_digits_bytes.
    change (be_value (rev ?l)) with (le_value l). rewrite le_value_digits.
    rewrite Z.mod_mod by (apply Z.pow_nonzero; lia). repeat split.
Qed.

(** X1: unsigned [to_bytes] returns exactly for the values of [len] bytes, and
    then gives [len] bytes that read back as the value in the byte order
    asked for; any other value raises [OverflowError]. *)
Theorem to_bytes_unsigned (n : Z) (len : nat) (order : ByteOrder) :
  (0 <= n < 2 ^ (8 * Z.of_nat len) ->
   exists bs,
     to_bytes n len order false = Ok bs
     /\ List.length bs = len
     /\ forallb is_byte bs = true
     /\ match order with Little => le_value bs | Big => be_value bs end = n)
  /\ (n < 0 \/ 2 ^ (8 * Z.of_nat len) <= n ->
      to_bytes n len order false = Raise OverflowError).
Proof.
  split.
  - intros Hfit.
    assert (Hrun : exists bs, to_bytes n len order false = Ok bs).
    { unfold to_bytes.
      replace ((0 <=? n) && (n <? 2 ^ (8 * Z.of_nat len))) with true.
      - eexists. reflexivity.
      - symmetry. apply andb_true_intro.
        split; [apply Z.leb_le | apply Z.ltb_lt]; lia. }
    destruct Hrun as [bs Hrun]. exists bs.
    destruct (to_bytes_ok _ _ _ _ _ Hrun) as (Hlen & Hbytes & Hval).
    repeat split; try assumption.
    rewrite Hval, <- bits_pow. apply Z.mod_small. exact Hfit.
  - intros Hout. unfold to_bytes.
    replace ((0 <=? n) && (n <? 2 ^ (8 * Z.of_nat len))) with false;
      [reflexivity|].
    symmetry. apply andb_false_iff.
    destruct Hout; [left; apply Z.leb_gt | right; apply Z.ltb_ge]; lia.
Qed.

(** A 4-byte timestamp one second before 2106, and the first one too large. *)
Lemma to_bytes_unsigned_witness :
  (exists bs,
      to_bytes 4294967295 4 Little false = Ok bs
      /\ List.length bs = 4%nat
      /\ forallb is_byte bs = true
      /\ le_value bs = 4294967295)
  /\ to_bytes 4294967296 4 Little false = Raise OverflowError.
Proof.
  split.
  - apply (to_bytes_unsigned 4294967295 4 Little). simpl. lia.
  - apply (to_bytes_unsigned 4294967296 4 Little). right. simpl. lia.
Defined.

(** X2: signed [to_bytes] returns exactly for the values of [len] bytes in
    two's complement, and then gives [len] bytes whose two's-complement
    reading is the value; any other value raises [OverflowError]. *)
Theorem to_bytes_signed (n : Z) (len : nat) (order : ByteOrder) :
  (0 < len)%nat ->
  let half := 2 ^ (8 * Z.of_nat len - 1) in
  (- half <= n < half ->
   exists bs,
     to_bytes n len order true = Ok bs
     /\ List.length bs = len
     /\ forallb is_byte bs = true
     /\ signed_value len
          (match order with Little => le_value bs | Big => be_value bs end)
        = n)
  /\ (n < - half \/ half <= n ->
      to_bytes n len order true = Raise OverflowError).
Proof.
  intros Hlen half.
  assert (Hbits : 0 < 8 * Z.of_nat len) by lia.
  assert (Hpow : 2 ^ (8 * Z.of_nat len) = 2 * half).
  { subst half. rewrite <- Z.pow_succ_r by lia. f_equal. lia. }
  assert (Hhalf : 0 < half) by (subst half; apply Z.pow_pos_nonneg; lia).
  split.
  - intros Hfit.
    assert (Hrun : exists bs, to_bytes n len order true = Ok bs).
    { unfold to_bytes. fold half.
      replace (- half <=? n) with true by (symmetry; apply Z.leb_le; lia).
      replace (n <? half) with true by (symmetry; apply Z.ltb_lt; lia).
      replace (0 <? 8 * Z.of_nat len) with true
        by (symmetry; apply Z.ltb_lt; lia).
      eexists. reflexivity. }
    destruct Hrun as [bs Hrun]. exists bs.
    destruct (to_bytes_ok _ _ _ _ _ Hrun) as (Hsize & Hbytes & Hval).
    repeat split; try assumption.
    rewrite Hval, <- bits_pow, Hpow. unfold signed_value. rewrite Hpow.
    destruct (Z_lt_le_dec n 0) as [Hneg|Hpos].
    + assert (Hmod : n mod (2 * half) = n + 2 * half).
      { symmetry. apply (Z.mod_unique_pos _ _ (-1)); lia. }
      rewrite Hmod.
      replace (2 * (n + 2 * half) <? 2 * half) with false
        by (symmetry; apply Z.ltb_ge; lia).
      lia.
    + rewrite Z.mod_small by lia.
      replace (2 * n <? 2 * half) with true
        by (symmetry; apply Z.ltb_lt; lia).
      reflexivity.
  - intros Hout. unfold to_bytes. fold half.
    assert (Hn : (n =? 0) = false) by (apply Z.eqb_neq; lia).
    rewrite Hn, orb_false_r.
    destruct Hout as [Hlow|Hhigh].
    + replace (- half <=? n) with false by (symmetry; apply Z.leb_gt; lia).
      reflexivity.
    + replace (n <? half) with false by (symmetry; apply Z.ltb_ge; lia).
      rewrite andb_false_r. reflexivity.
Qed.

(** The most western longitude in micro-degrees, and one past 32 bits. *)
Lemma to_bytes_signed_witness :
  (exists bs,
      to_bytes (-180000000) 4 Little true = Ok bs
      /\ List.length bs = 4%nat
      /\ forallb is_byte bs = true
      /\ signed_value 4 (le_value bs) = -180000000)
  /\ to_bytes 2147483648 4 Little true = Raise OverflowError.
Proof.
  split.
  - apply (to_bytes_signed (-180000000) 4 Little); [lia | simpl; lia].
  - apply (to_bytes_signed 2147483648 4 Little); [lia | right; simpl; lia].
Defined.

(** ** bytes.fromhex *)

Lemma hex_digit_nibble (c : ascii) (v : Z) :
  hex_digit c = Some v -> 0 <= v < 16.
Proof.
  unfold hex_digit.
  repeat match goal with
         | |- context [if ?b then _ else _] => destruct b eqn:?
         end; intros [= <-]; lia.
Qed.

(** Whatever [fromhex] accepts, it returns bytes, at most one for every two
    characters read. *)
Lemma fromhex_chars_bytes (n : nat) :
  forall l bs,
    (List.length l <= n)%nat ->
    fromhex_chars l = Ok bs ->
    forallb is_byte bs = true /\ (2 * List.length bs <= List.length l)%nat.
Proof.
  induction n as [|n IH]; intros l bs Hle Hrun.
  - destruct l; [|simpl in Hle; lia].
    injection Hrun as <-. split; [reflexivity | simpl; lia].
  - destruct l as [|c rest].
    { injection Hrun as <-. split; [reflexivity | simpl; lia]. }
    simpl in Hle. simpl in Hrun.
    destruct (is_space c).
    + destruct (IH rest bs ltac:(lia) Hrun) as [Hb Hsz].
      split; [exact Hb | simpl; lia].
    + destruct (hex_digit c) as [top|] eqn:Htop; [|discriminate].
      destruct rest as [|d rest']; [discriminate|].
      destruct (hex_digit d) as [bot|] eqn:Hbot; [|discriminate].
      destruct (fromhex_chars rest') as [bs'|] eqn:Hrest; [|discriminate].
      injection Hrun as <-. simpl in Hle.
      destruct (IH rest' bs' ltac:(lia) Hrest) as [Hb Hsz].
      apply hex_digit_nibble in Htop, Hbot.
      split.
      * cbn [forallb]. rewrite Hb, andb_true_r. unfold is_byte.
        apply andb_true_intro.
        split; [apply Z.leb_le | apply Z.ltb_lt]; destruct top; lia.
      * simpl. lia.
Qed.

(** X3: whatever [fromhex] accepts, it returns bytes, at most one for every two
    characters read. *)
Theorem fromhex_returns_bytes (s : string) (bs : bytes) :
  bytes_fromhex s = Ok bs ->
  forallb is_byte bs = true
  /\ (2 * List.length bs <= String.length s)%nat.
Proof.
  unfold bytes_fromhex. rewrite <- chars_length.
  apply (fromhex_chars_bytes (List.length (list_ascii_of_string s))). lia.
Qed.

Lemma fromhex_returns_bytes_witness :
  forallb is_byte [0x01; 0x23; 0x45; 0x67; 0x89; 0xAB] = true
  /\ (2 * List.length [0x01; 0x23; 0x45; 0x67; 0x89; 0xAB]
      <= String.length "01 23 45 67 89 ab")%nat.
Proof.
  apply (fromhex_returns_bytes "01 23 45 67 89 ab").
  vm_compute. reflexivity.
Defined.

(** An odd run of digits leaves a lone digit at its end. *)
Lemma fromhex_odd_digits (n : nat) :
  forall l,
    List.length l = (2 * n + 1)%nat ->
    forallb is_hex_char l = true ->
    fromhex_chars l = Raise ValueError.
Proof.
  induction n as [|n IH]; intros l Hlen Hhex.
  - destruct l as [|c [|d rest]]; try (simpl in Hlen; lia).
    simpl in Hhex. apply andb_prop in Hhex as [Hc _].
    simpl. rewrite (hex_char_not_space c Hc).
    unfold is_hex_char in Hc.
    destruct (hex_digit c); [reflexivity | discriminate].
  - destruct l as [|c [|d rest]]; try (simpl in Hlen; lia).
    simpl in Hhex.
    apply andb_prop in Hhex as [Hc Hhex].
    apply andb_prop in Hhex as [Hd Hrest].
    assert (Hlen' : List.length rest = (2 * n + 1)%nat)
      by (simpl in Hlen; lia).
    simpl. rewrite (hex_char_not_space c Hc).
    unfold is_hex_char in Hc, Hd.
    destruct (hex_digit c); [|discriminate].
    destruct (hex_digit d); [|discriminate].
    rewrite (IH rest Hlen' Hrest). reflexivity.
Qed.

(** X4: beyond 64 hexadecimal digits the destination is not cut down to 32
    bytes: an even number of digits gives one byte for every two digits,
    more than 32, and an odd number raises [ValueError]. *)
Theorem dst32_of_oversized_prefix (prefix : string) :
  is_hex prefix = true ->
  (64 < String.length prefix)%nat ->
  (Nat.even (String.length prefix) = true ->
   exists dst32,
     dst32_of prefix = Ok dst32
     /\ bytes_fromhex prefix = Ok dst32
     /\ (2 * List.length dst32 = String.length prefix)%nat
     /\ (32 < List.length dst32)%nat)
  /\ (Nat.even (String.length prefix) = false ->
      dst32_of prefix = Raise ValueError).
Proof.
  intros Hhex Hlong.
  assert (Hsame : dst32_of prefix = bytes_fromhex prefix).
  { unfold dst32_of, bytes_fromhex, str_ljust.
    rewrite (str_len_hex _ Hhex).
    replace (64 - String.length prefix)%nat with 0%nat by lia.
    simpl. rewrite chars_app. simpl. rewrite app_nil_r. reflexivity. }
  rewrite Hsame. unfold bytes_fromhex. split.
  - intros Heven. apply Nat.even_spec in Heven as [m Hm].
    assert (Hlen : List.length (list_ascii_of_string prefix) = (2 * m)%nat)
      by (rewrite chars_length; exact Hm).
    destruct (fromhex_hex_pairs m _ Hlen Hhex) as [Hrun Hsize].
    exists (hex_pairs (list_ascii_of_string prefix)).
    repeat split; try assumption; lia.
  - intros Hodd.
    assert (Hodd' : Nat.odd (String.length prefix) = true)
      by (rewrite <- Nat.negb_even, Hodd; reflexivity).
    apply Nat.odd_spec in Hodd' as [m Hm].
    apply (fromhex_odd_digits m); [|exact Hhex].
    rewrite chars_length. exact Hm.
Qed.

(** 66 digits give 33 bytes; 65 digits raise. *)
Lemma dst32_of_oversized_prefix_witness :
  (exists dst32,
      dst32_of long_prefix = Ok dst32
      /\ bytes_fromhex long_prefix = Ok dst32
      /\ (2 * List.length dst32 = String.length long_prefix)%nat
      /\ (32 < List.length dst32)%nat)
  /\ dst32_of (str_repeat "F"%char 65) = Raise ValueError.
Proof.
  split.
  - apply (dst32_of_oversized_prefix long_prefix);
      [reflexivity | simpl; lia | reflexivity].
  - apply (dst32_of_oversized_prefix (str_repeat "F"%char 65));
      [reflexivity | simpl; lia | reflexivity].
Defined.

(** ** ljust on bytes *)

(** X5: [ljust] pads and never truncates: the result has the width asked for or
    the length of the bytes given, whichever is larger; it starts with the
    bytes given and everything after them is the fill byte. *)
Theorem bytes_ljust_pads (b : bytes) (width : nat) (fillbyte : Z) :
  List.length (bytes_ljust b width fillbyte)
    = Nat.max (List.length b) width
  /\ firstn (List.length b) (bytes_ljust b width fillbyte) = b
  /\ skipn (List.length b) (bytes_ljust b width fillbyte)
     = repeat fillbyte (width - List.length b)
  /\ bytes_ljust (bytes_ljust b width fillbyte) width fillbyte
     = bytes_ljust b width fillbyte.
Proof.
  unfold bytes_ljust. repeat split.
  - rewrite length_app, repeat_length. lia.
  - apply firstn_exact.
  - rewrite skipn_app, skipn_all, Nat.sub_diag. reflexivity.
  - rewrite length_app, repeat_length.
    replace (width - (List.length b + (width - List.length b)))%nat
      with 0%nat by lia.
    simpl. apply app_nil_r.
Qed.

Lemma str_encode_length (s : string) :
  List.length (str_encode s) = String.length s.
Proof. unfold str_encode. rewrite length_map. apply chars_length. Qed.

(** X6: the setChannel name field counts encoded bytes: a name of at most 32
    UTF-8 bytes fills exactly 32 bytes, zero-padded on the right; a longer
    one is kept whole and the field grows with it. *)
Theorem channel_name_field_width (name : string) :
  firstn (String.length name) (channel_name_field name) = str_encode name
  /\ ((String.length name <= 32)%nat ->
      List.length (channel_name_field name) = 32%nat
      /\ skipn (String.length name) (channel_name_field name)
         = repeat 0 (32 - String.length name))
  /\ ((32 < String.length name)%nat ->
      channel_name_field name = str_encode name
      /\ (32 < List.length (channel_name_field name))%nat).
Proof.
  unfold channel_name_field, bytes_ljust.
  rewrite <- (str_encode_length name).
  split; [apply firstn_exact|]. split.
  - intros Hfit. split.
    + rewrite length_app, repeat_length. lia.
    + rewrite skipn_app, skipn_all, Nat.sub_diag. reflexivity.
  - intros Hlong.
    replace (32 - List.length (str_encode name))%nat with 0%nat by lia.
    cbn [repeat]. rewrite app_nil_r. split; [reflexivity | exact Hlong].
Qed.

(** "General" fills 32 bytes; a name of 33 letters overflows the field. *)
Lemma channel_name_field_width_witness :
  (List.length (channel_name_field "General") = 32%nat
   /\ skipn (String.length "General") (channel_name_field "General")
      = repeat 0 (32 - String.length "General"))
  /\ (channel_name_field (str_repeat "n"%char 33)
      = str_encode (str_repeat "n"%char 33)
      /\ (32 < List.length (channel_name_field (str_repeat "n"%char 33)))%nat).
Proof.
  split.
  - apply (channel_name_field_width "General"). simpl. lia.
  - apply (channel_name_field_width (str_repeat "n"%char 33)). simpl. lia.
Defined.

(** ** Dictionaries *)

(** X7: reading after an assignment: the key assigned holds the new value, and
    every other key holds what it held before. *)
Theorem get_setitem (d : dict) (k k' : string) (v : bytes) :
  get (setitem d k v) k = Some v
  /\ (k' <> k -> get (setitem d k v) k' = get d k').
Proof.
  split.
  - induction d as [|[k0 v0] d IH]; simpl.
    + rewrite String.eqb_refl. reflexivity.
    + destruct (String.eqb k0 k) eqn:Hk; simpl.
      * rewrite String.eqb_refl. reflexivity.
      * rewrite Hk. exact IH.
  - intros Hneq.
    induction d as [|[k0 v0] d IH]; simpl.
    + apply String.eqb_neq in Hneq. rewrite String.eqb_sym, Hneq.
      reflexivity.
    + destruct (String.eqb k0 k) eqn:Hk; simpl.
      * apply String.eqb_eq in Hk. subst k0.
        apply String.eqb_neq in Hneq. rewrite String.eqb_sym, Hneq.
        reflexivity.
      * destruct (String.eqb k0 k'); [reflexivity | exact IH].
Qed.

Lemma get_setitem_witness :
  get (setitem [("getTime", [0x05])] "getBattery" [0x14]) "getTime"
    = get [("getTime", [0x05])] "getTime".
Proof.
  apply (get_setitem [("getTime", [0x05])] "getBattery" "getTime" [0x14]).
  discriminate.
Defined.

Lemma get_none (d : dict) (k : string) :
  get d k = None <-> ~ In k (map fst d).
Proof.
  induction d as [|[k0 v0] d IH]; simpl.
  - split; [intros _ [] | reflexivity].
  - destruct (String.eqb k0 k) eqn:Hk.
    + apply String.eqb_eq in Hk. split; [discriminate|].
      intros Hout. exfalso. apply Hout. left. exact Hk.
    + apply String.eqb_neq in Hk. rewrite IH. tauto.
Qed.

Lemma setitem_keys_present (d : dict) (k : string) (v : bytes) :
  In k (map fst d) -> map fst (setitem d k v) = map fst d.
Proof.
  induction d as [|[k0 v0] d IH]; simpl; [intros []|].
  intros Hk. destruct (String.eqb k0 k) eqn:Heq; simpl.
  - apply String.eqb_eq in Heq. subst k0. reflexivity.
  - apply String.eqb_neq in Heq. f_equal. apply IH.
    destruct Hk as [Hk|Hk]; [contradiction | exact Hk].
Qed.

Lemma setitem_keys_absent (d : dict) (k : string) (v : bytes) :
  ~ In k (map fst d) -> map fst (setitem d k v) = map fst d ++ [k].
Proof.
  induction d as [|[k0 v0] d IH]; simpl; [reflexivity|].
  intros Hk. destruct (String.eqb k0 k) eqn:Heq; simpl.
  - apply String.eqb_eq in Heq. exfalso. apply Hk. left. exact Heq.
  - f_equal. apply IH. intros Hd. apply Hk. right. exact Hd.
Qed.

(** X8: assignment keeps insertion order: a key already present keeps its
    place and the keys are unchanged; a new key goes last.  Keys stay
    distinct. *)
Theorem setitem_keys (d : dict) (k : string) (v : bytes) :
  (In k (map fst d) -> map fst (setitem d k v) = map fst d)
  /\ (~ In k (map fst d) -> map fst (setitem d k v) = map fst d ++ [k])
  /\ (NoDup (map fst d) -> NoDup (map fst (setitem d k v))).
Proof.
  split; [apply setitem_keys_present|].
  split; [apply setitem_keys_absent|].
  intros Hnd.
  destruct (in_dec string_dec k (map fst d)) as [Hk|Hk].
  - rewrite (setitem_keys_present _ _ _ Hk). exact Hnd.
  - rewrite (setitem_keys_absent _ _ _ Hk). apply NoDup_app; repeat split.
    + exact Hnd.
    + constructor; [intros [] | constructor].
    + intros x Hx [<-|[]]. contradiction.
Qed.

Lemma setitem_keys_witness :
  map fst (setitem [("getTime", [0x05]); ("reboot", [0x13])] "getTime" [])
    = ["getTime"; "reboot"]
  /\ map fst (setitem [("getTime", [0x05]); ("reboot", [0x13])] "signStart" [])
     = ["getTime"; "reboot"] ++ ["signStart"]
  /\ NoDup (map fst (setitem [("getTime", [0x05]); ("reboot", [0x13])]
                             "signStart" [])).
Proof.
  split; [|split].
  - apply (setitem_keys [("getTime", [0x05]); ("reboot", [0x13])]
                        "getTime" []).
    simpl. tauto.
  - apply (setitem_keys [("getTime", [0x05]); ("reboot", [0x13])]
                        "signStart" []).
    simpl. intuition discriminate.
  - apply (setitem_keys [("getTime", [0x05]); ("reboot", [0x13])]
                        "signStart" []).
    simpl. repeat constructor; simpl; intuition discriminate.
Defined.

(** X9: indexing either mapping by a name that is not one of its keys raises
    [KeyError], and only then; a key gives the frame stored under it. *)
Theorem lookup_entry_key_error (k : string) (w : World) :
  (lookup_entry generate_packet_builder_references k w = Raise KeyError
   <-> ~ In k (map fst packet_builder_references))
  /\ (lookup_entry generate_lpp_references_manual k w = Raise KeyError
      <-> ~ In k (map fst lpp_references_manual))
  /\ (forall frame,
         lookup_entry generate_packet_builder_references k w = Ok frame ->
         In (k, frame) packet_builder_references)
  /\ (forall frame,
         lookup_entry generate_lpp_references_manual k w = Ok frame ->
         In (k, frame) lpp_references_manual).
Proof.
  rewrite (lookup_entry_run _ _ k w (packet_builder_run w)).
  rewrite (lookup_entry_run _ _ k w (lpp_manual_run w)).
  assert (Hmiss : forall d, getitem d k = Raise KeyError
                            <-> ~ In k (map fst d)).
  { intros d. rewrite <- get_none. unfold getitem.
    destruct (get d k); split; congruence. }
  assert (Hhit : forall d frame, getitem d k = Ok frame -> In (k, frame) d).
  { intros d frame. unfold getitem.
    induction d as [|[k0 v0] d IH]; simpl; [discriminate|].
    destruct (String.eqb k0 k) eqn:Heq.
    - apply String.eqb_eq in Heq. intros [= <-]. left. subst k0.
      reflexivity.
    - intros Hget. right. apply IH. exact Hget. }
  repeat split; try apply Hmiss; try apply Hhit.
Qed.

(** A kind name without the arguments of its vector is not a key. *)
Lemma lookup_entry_key_error_witness :
  lookup_entry generate_packet_builder_references "setTime" epoch_world
    = Raise KeyError
  /\ In ("getTime", [0x05]) packet_builder_references.
Proof.
  split.
  - apply (lookup_entry_key_error "setTime" epoch_world).
    vm_compute. intuition discriminate.
  - apply (lookup_entry_key_error "getTime" epoch_world).
    vm_compute. reflexivity.
Defined.

(** ** to_swift_data *)

Lemma in_py_range (b : Z) (n : nat) :
  0 <= b < Z.of_nat n -> In b (py_range n).
Proof.
  intros Hb. unfold py_range. apply in_map_iff.
  exists (Z.to_nat b). split; [lia|]. apply in_seq. lia.
Qed.

(** A byte is written as two hexadecimal digits, high nibble first. *)
Lemma format_02X_byte (b : Z) :
  is_byte b = true ->
  exists c d,
    list_ascii_of_string (format_02X b) = [c; d]
    /\ hex_digit c = Some (b / 16)
    /\ hex_digit d = Some (b mod 16).
Proof.
  intros Hb. unfold is_byte in Hb.
  apply andb_prop in Hb as [Hlo Hhi].
  apply Z.leb_le in Hlo. apply Z.ltb_lt in Hhi.
  pose (check := fun b =>
    match list_ascii_of_string (format_02X b) with
    | [c; d] =>
        match hex_digit c, hex_digit d with
        | Some top, Some bot => (top =? b / 16) && (bot =? b mod 16)
        | _, _ => false
        end
    | _ => false
    end).
  assert (Hall : forallb check (py_range 256) = true)
    by (vm_compute; reflexivity).
  rewrite forallb_forall in Hall.
  specialize (Hall b (in_py_range b 256 ltac:(lia))).
  unfold check in Hall.
  destruct (list_ascii_of_string (format_02X b)) as [|c [|d [|]]];
    try discriminate.
  destruct (hex_digit c) as [top|] eqn:Hc; [|discriminate].
  destruct (hex_digit d) as [bot|] eqn:Hd; [|discriminate].
  apply andb_prop in Hall as [Htop Hbot].
  apply Z.eqb_eq in Htop, Hbot. subst top bot.
  exists c, d. repeat split; assumption.
Qed.

Lemma strip_prefix_app (p l : list ascii) : strip_prefix p (p ++ l) = Some l.
Proof.
  induction p as [|a p IH]; simpl; [destruct l; reflexivity|].
  rewrite Ascii.eqb_refl. exact IH.
Qed.

Lemma split_at_space_word (word rest : list ascii) :
  forallb (fun c => negb (Ascii.eqb c " ")) word = true ->
  split_at_space (word ++ " "%char :: rest) = (word, rest).
Proof.
  induction word as [|c word IH]; simpl; [reflexivity|].
  intros [Hc Hword]%andb_prop.
  apply negb_true_iff in Hc. rewrite Hc, (IH Hword). reflexivity.
Qed.

(** The items of a list of bytes, as [to_swift_data] joins them. *)
Lemma read_items_joined (data : bytes) :
  forallb is_byte data = true ->
  read_items
    (list_ascii_of_string
       (String.concat ", " (map (fun b => "0x" ++ format_02X b)%string data))
     ++ ["]"; ")"]%char)
  = Some data.
Proof.
  induction data as [|b data IH]; [reflexivity|].
  cbn [forallb]. intros [Hb Hdata]%andb_prop.
  destruct (format_02X_byte b Hb) as (c & d & Hcd & Hc & Hd).
  assert (Hbyte : 16 * (b / 16) + b mod 16 = b)
    by (symmetry; apply Z.div_mod; lia).
  destruct data as [|b' data].
  - cbn [map String.concat]. rewrite chars_app, Hcd.
    cbn [list_ascii_of_string app read_items].
    rewrite Hc, Hd, Hbyte. reflexivity.
  - specialize (IH Hdata).
    cbn [map String.concat] in *. rewrite !chars_app, Hcd.
    cbn [list_ascii_of_string app read_items].
    rewrite Hc, Hd.
    change (Ascii.eqb "0" "0" && Ascii.eqb "x" "x") with true.
    change (Ascii.eqb "," "," && Ascii.eqb " " " ") with true.
    cbv iota. rewrite IH. cbn [option_map]. rewrite Hbyte. reflexivity.
Qed.

(** X10: a line written by [to_swift_data] reads back as the name and the bytes
    it was written from, for a name without spaces: nothing of the frame is
    lost or altered in the fixture. *)
Theorem to_swift_data_roundtrip (name : string) (data : bytes) :
  has_no_space name = true ->
  forallb is_byte data = true ->
  parse_swift_data (to_swift_data name data) = Some (name, data).
Proof.
  intros Hname Hdata. unfold parse_swift_data, to_swift_data.
  rewrite chars_app, strip_prefix_app.
  rewrite chars_app.
  change (list_ascii_of_string (" = Data([" ++ ?s))
    with (" "%char :: list_ascii_of_string ("= Data([" ++ s)).
  rewrite (split_at_space_word _ _ Hname).
  rewrite chars_app, strip_prefix_app, chars_app.
  change (list_ascii_of_string "])") with ["]"; ")"]%char.
  rewrite (read_items_joined data Hdata). cbn [option_map].
  rewrite string_of_list_ascii_of_string. reflexivity.
Qed.

Lemma to_swift_data_roundtrip_witness :
  parse_swift_data (to_swift_data "getTime" [0x05; 0xAB; 0x00])
    = Some ("getTime", [0x05; 0xAB; 0x00]).
Proof.
  apply (to_swift_data_roundtrip "getTime" [0x05; 0xAB; 0x00]);
    reflexivity.
Defined.

(** ** generate_lpp_references and main *)

Lemma bytes_lit_ok (l bs : list Z) :
  bytes_lit l = Ok bs -> bs = l /\ forallb is_byte l = true.
Proof.
  unfold bytes_lit. destruct (forallb is_byte l); [|discriminate].
  intros [= <-]. split; reflexivity.
Qed.

(** With the library imported, a mapping that is returned has the six
    names of the manual one, in its order, and holds bytes only. *)
Lemma generate_lpp_references_with_ok (lib : LppLibrary) (w : World)
      (refs : dict) :
  generate_lpp_references_with lib w = Ok refs ->
  map fst refs = map fst lpp_references_manual
  /\ forallb (fun entry => forallb is_byte (snd entry)) refs = true.
Proof.
  unfold generate_lpp_references_with, bind, assign, lift, ret, res_bind.
  intros Hrun.
  repeat match type of Hrun with
         | context [match bytes_lit ?l with _ => _ end] =>
             let Hb := fresh "Hb" in
             destruct (bytes_lit l) eqn:Hb; [|discriminate Hrun];
             apply bytes_lit_ok in Hb as [-> Hb]
         | context [match ?f lib w with _ => _ end] =>
             destruct (f lib w); [|discriminate Hrun]
         | context [match ?f lib ?a w with _ => _ end] =>
             destruct (f lib a w); [|discriminate Hrun]
         | context [match ?f lib ?a ?b ?c w with _ => _ end] =>
             destruct (f lib a b c w); [|discriminate Hrun]
         | context [match ?f lib ?a ?b ?c ?d ?e w with _ => _ end] =>
             destruct (f lib a b c d e w); [|discriminate Hrun]
         end.
  injection Hrun as <-. split; [reflexivity|].
  cbn [setitem String.eqb Ascii.eqb Bool.eqb forallb snd].
  repeat match goal with H : forallb is_byte _ = true |- _ =>
                           rewrite H; clear H end.
  reflexivity.
Qed.

(** The two ways [generate_lpp_references] returns. *)
Lemma generate_lpp_references_run
      (cayennelpp : option LppLibrary) (w : World) (c c' : Console)
      (refs : dict) :
  generate_lpp_references cayennelpp w c = (Ok refs, c') ->
  (cayennelpp = None
   /\ refs = lpp_references_manual
   /\ c' = mkConsole
             (stdout c)
             (stderr c
                ++ ["// cayennelpp not installed, LPP references generated manually"]))
  \/ (exists lib,
         cayennelpp = Some lib
         /\ generate_lpp_references_with lib w = Ok refs
         /\ c' = c).
Proof.
  destruct cayennelpp as [lib|]; unfold generate_lpp_references.
  - unfold run_py. intros [= Hrun <-]. right. exists lib.
    repeat split. exact Hrun.
  - unfold io_bind, print_stderr, run_py. rewrite lpp_manual_run.
    intros [= <- <-]. left. repeat split.
Qed.

(** X11: [generate_lpp_references] returns the same six names whether or not
    cayennelpp is installed, holds bytes only, and prints nothing on
    standard output; without the library it returns the manual mapping and
    writes its one notice on standard error, with it it prints nothing. *)
Theorem generate_lpp_references_names
        (cayennelpp : option LppLibrary) (w : World) (c c' : Console)
        (refs : dict) :
  generate_lpp_references cayennelpp w c = (Ok refs, c') ->
  map fst refs
    = [ "lpp_temperature_25_5"; "lpp_humidity_65"; "lpp_analog_3_3";
        "lpp_gps_sf"; "lpp_barometer_1013"; "lpp_accelerometer_1g" ]
  /\ forallb (fun entry => forallb is_byte (snd entry)) refs = true
  /\ stdout c' = stdout c
  /\ (cayennelpp = None ->
      refs = lpp_references_manual
      /\ stderr c'
         = stderr c
             ++ ["// cayennelpp not installed, LPP references generated manually"])
  /\ (cayennelpp <> None -> c' = c).
Proof.
  intros Hgen.
  destruct (generate_lpp_references_run _ _ _ _ _ Hgen)
    as [(-> & -> & ->) | (lib & -> & Hrun & ->)].
  - split; [reflexivity|]. split; [reflexivity|]. split; [reflexivity|].
    split; [split; reflexivity | intros Hsome; contradiction].
  - destruct (generate_lpp_references_with_ok lib w refs Hrun)
      as [Hnames Hbytes].
    split; [exact Hnames|]. split; [exact Hbytes|].
    split; [reflexivity|]. split; [discriminate | reflexivity].
Qed.

Lemma generate_lpp_references_names_witness :
  map fst [ ("lpp_temperature_25_5", [0x01; 0x67]);
            ("lpp_humidity_65", [0x02; 0x68]);
            ("lpp_analog_3_3", [0x03; 0x02]);
            ("lpp_gps_sf", [0x04; 0x88]);
            ("lpp_barometer_1013", [0x05; 0x73]);
            ("lpp_accelerometer_1g", [0x06; 0x71]) ]
    = [ "lpp_temperature_25_5"; "lpp_humidity_65"; "lpp_analog_3_3";
        "lpp_gps_sf"; "lpp_barometer_1013"; "lpp_accelerometer_1g" ].
Proof.
  apply (generate_lpp_references_names
           (Some header_only_lpp) epoch_world blank blank).
  vm_compute. reflexivity.
Defined.

Lemma print_items_run (items : dict) (w : World) (c : Console) :
  print_items items w c
    = (Ok tt,
       mkConsole
         (stdout c
            ++ map (fun entry => to_swift_data (fst entry) (snd entry)) items)
         (stderr c)).
Proof.
  revert c. induction items as [|[name data] items IH]; intros c.
  - simpl. unfold io_ret. rewrite app_nil_r. destruct c; reflexivity.
  - cbn [print_items]. unfold io_bind, print. rewrite IH.
    cbn [stdout stderr map fst snd]. rewrite <- app_assoc. reflexivity.
Qed.

(** [main] up to the call that builds the LPP references. *)
Lemma main_run (cayennelpp : option LppLibrary) (w : World) :
  main cayennelpp w blank
    = match generate_lpp_references cayennelpp w (mkConsole preamble []) with
      | (Ok refs, c) =>
          (Ok tt,
           mkConsole
             (stdout c
                ++ map (fun entry => to_swift_data (fst entry) (snd entry))
                       refs
                ++ ["}"])
             (stderr c))
      | (Raise e, c) => (Raise e, c)
      end.
Proof.
  unfold main, io_bind, print, run_py, blank.
  rewrite packet_builder_run. rewrite print_items_run.
  cbn [stdout stderr app].
  match goal with
  | |- context [generate_lpp_references _ _ (mkConsole ?l _)] =>
      replace l with preamble by (vm_compute; reflexivity)
  end.
  destruct (generate_lpp_references cayennelpp w (mkConsole preamble []))
    as [[refs|e] c]; [|reflexivity].
  rewrite print_items_run. cbn [stdout stderr]. rewrite <- app_assoc.
  reflexivity.
Qed.

(** [generate_lpp_references] leaves standard output alone, also when it
    raises. *)
Lemma generate_lpp_references_stdout
      (cayennelpp : option LppLibrary) (w : World) (c : Console) :
  stdout (snd (generate_lpp_references cayennelpp w c)) = stdout c.
Proof.
  destruct cayennelpp as [lib|]; unfold generate_lpp_references.
  - reflexivity.
  - unfold io_bind, print_stderr, run_py. rewrite lpp_manual_run.
    reflexivity.
Qed.

Lemma preamble_length : List.length preamble = 43%nat.
Proof. vm_compute. reflexivity. Qed.

(** X12: [main] always prints the header and the 31 command lines first, 43
    lines.  When it returns it has printed 50 lines: those, one line for
    each of the six LPP names and the closing brace.  When the library
    raises, the 43 lines are all there is: the fixture is left without its
    closing brace.  Without the library it returns, and the LPP lines are
    those of the manual mapping. *)
Theorem main_output (cayennelpp : option LppLibrary) (w : World) :
  let run := main cayennelpp w blank in
  firstn 43 (stdout (snd run)) = preamble
  /\ (fst run = Ok tt ->
      exists refs,
        stdout (snd run)
          = preamble
              ++ map (fun entry => to_swift_data (fst entry) (snd entry)) refs
              ++ ["}"]
        /\ map fst refs = map fst lpp_references_manual
        /\ List.length (stdout (snd run)) = 50%nat)
  /\ (forall e, fst run = Raise e -> stdout (snd run) = preamble)
  /\ (cayennelpp = None ->
      run = (Ok tt,
             mkConsole
               (preamble
                  ++ map (fun entry => to_swift_data (fst entry) (snd entry))
                         lpp_references_manual
                  ++ ["}"])
               ["// cayennelpp not installed, LPP references generated manually"])).
Proof.
  cbv zeta. rewrite main_run.
  pose proof (generate_lpp_references_stdout
                cayennelpp w (mkConsole preamble [])) as Hout.
  pose proof (generate_lpp_references_run
                cayennelpp w (mkConsole preamble [])) as Hways.
  destruct (generate_lpp_references cayennelpp w (mkConsole preamble []))
    as [[refs|e] c] eqn:Hgen; cbn [fst snd stdout stderr] in *.
  - assert (Hkeys : map fst refs = map fst lpp_references_manual).
    { destruct (Hways c refs eq_refl)
        as [(_ & -> & _) | (lib & _ & Hrun & _)]; [reflexivity|].
      apply (generate_lpp_references_with_ok lib w refs Hrun). }
    rewrite Hout. split; [|split; [|split]].
    + rewrite <- preamble_length at 1. apply firstn_exact.
    + intros _. exists refs. split; [reflexivity|]. split; [exact Hkeys|].
      rewrite !length_app, length_map, preamble_length.
      rewrite <- (length_map fst refs), Hkeys. reflexivity.
    + intros e He. discriminate He.
    + intros Hlib.
      destruct (Hways c refs eq_refl)
        as [(_ & -> & ->) | (lib & Hsome & _)]; [reflexivity|].
      rewrite Hlib in Hsome. discriminate Hsome.
  - rewrite Hout. split; [|split; [|split]].
    + rewrite <- preamble_length at 1. rewrite <- (app_nil_r preamble) at 2.
      apply firstn_exact.
    + intros He. discriminate He.
    + intros _ _. reflexivity.
    + intros ->.
      unfold generate_lpp_references, io_bind, print_stderr, run_py in Hgen.
      rewrite lpp_manual_run in Hgen. discriminate Hgen.
Qed.

(** A library that works, one whose constructor raises, and none. *)
Lemma main_output_witness :
  (exists refs,
      stdout (snd (main (Some header_only_lpp) epoch_world blank))
        = preamble
            ++ map (fun entry => to_swift_data (fst entry) (snd entry)) refs
            ++ ["}"]
      /\ map fst refs = map fst lpp_references_manual
      /\ List.length
           (stdout (snd (main (Some header_only_lpp) epoch_world blank)))
         = 50%nat)
  /\ stdout (snd (main (Some broken_lpp) epoch_world blank)) = preamble
  /\ main None epoch_world blank
     = (Ok tt,
        mkConsole
          (preamble
             ++ map (fun entry => to_swift_data (fst entry) (snd entry))
                    lpp_references_manual
             ++ ["}"])
          ["// cayennelpp not installed, LPP references generated manually"]).
Proof.
  split; [|split].
  - apply (main_output (Some header_only_lpp) epoch_world).
    vm_compute. reflexivity.
  - apply (main_output (Some broken_lpp) epoch_world) with (e := ValueError).
    vm_compute. reflexivity.
  - apply (main_output None epoch_world). reflexivity.
Defined.

Lemma nodupb_NoDup (l : list string) : nodupb l = true -> NoDup l.
Proof.
  induction l as [|s l IH]; simpl; [constructor|].
  intros [Hs Hl]%andb_prop. constructor; [|apply IH; exact Hl].
  intros Hin. apply negb_true_iff in Hs.
  assert (Hex : existsb (String.eqb s) l = true).
  { apply existsb_exists. exists s. split; [exact Hin|].
    apply String.eqb_refl. }
  congruence.
Qed.

(** X13: every name the fixture declares is an identifier and no two of its
    [static let] lines share a name, with or without cayennelpp; every
    frame of the command mapping holds bytes only. *)
Theorem fixture_names_distinct
        (cayennelpp : option LppLibrary) (w : World) (c c' : Console)
        (refs : dict) :
  generate_lpp_references cayennelpp w c = (Ok refs, c') ->
  exists commands,
    generate_packet_builder_references w = Ok commands
    /\ NoDup (map fst commands ++ map fst refs)
    /\ Forall (fun name => is_identifier name = true)
              (map fst commands ++ map fst refs)
    /\ Forall (fun name => has_no_space name = true)
              (map fst commands ++ map fst refs)
    /\ forallb (fun entry => forallb is_byte (snd entry)) commands = true.
Proof.
  intros Hgen.
  assert (Hkeys : map fst refs = map fst lpp_references_manual).
  { destruct (generate_lpp_references_run _ _ _ _ _ Hgen)
      as [(_ & -> & _) | (lib & _ & Hrun & _)]; [reflexivity|].
    apply (generate_lpp_references_with_ok lib w refs Hrun). }
  exists packet_builder_references. rewrite Hkeys.
  split; [apply packet_builder_run|]. split; [|split; [|split]].
  - apply nodupb_NoDup. vm_compute. reflexivity.
  - apply Forall_forall. apply forallb_forall. vm_compute. reflexivity.
  - apply Forall_forall. apply forallb_forall. vm_compute. reflexivity.
  - vm_compute. reflexivity.
Qed.

Lemma fixture_names_distinct_witness :
  exists commands,
    generate_packet_builder_references epoch_world = Ok commands
    /\ NoDup (map fst commands ++ map fst lpp_references_manual)
    /\ Forall (fun name => is_identifier name = true)
              (map fst commands ++ map fst lpp_references_manual)
    /\ Forall (fun name => has_no_space name = true)
              (map fst commands ++ map fst lpp_references_manual)
    /\ forallb (fun entry => forallb is_byte (snd entry)) commands = true.
Proof.
  apply (fixture_names_distinct None epoch_world blank
           (mkConsole []
              ["// cayennelpp not installed, LPP references generated manually"])).
  vm_compute. reflexivity.
Defined.

(** ** Literals against the layouts written beside them *)

(** X14: the temperature, humidity, analog and accelerometer literals of
    [generate_lpp_references_manual] are the layouts of their comments at
    the readings named there: 25.5 C, 65 %, 3.3 and (0, 0, 1) g. *)
Theorem lpp_literals_follow_layouts (w : World) :
  lookup_entry generate_lpp_references_manual "lpp_temperature_25_5" w
    = lpp_temperature 1 (255 # 10)
  /\ lookup_entry generate_lpp_references_manual "lpp_humidity_65" w
     = lpp_humidity 2 (65 # 1)
  /\ lookup_entry generate_lpp_references_manual "lpp_analog_3_3" w
     = lpp_analog 3 (33 # 10)
  /\ lookup_entry generate_lpp_references_manual "lpp_accelerometer_1g" w
     = lpp_accelerometer 6 0 0 1
  /\ lpp_temperature 1 (255 # 10) = Ok [0x01; 0x67; 0x00; 0xFF]
  /\ lpp_humidity 2 (65 # 1) = Ok [0x02; 0x68; 0x82].
Proof.
  repeat match goal with |- _ /\ _ => split end;
    try run_entry; vm_compute; reflexivity.
Qed.

(** X15: the message frames follow their [Format] comments: sendMessage and
    sendCommand carry the reference timestamp in bytes 3..7, little-endian,
    the 6-byte destination in bytes 7..13 and the text after it;
    sendChannelMessage carries the timestamp in bytes 3..7 and the text
    after it.  The 6-byte destination is the start of the 32-byte one. *)
Theorem message_frames_fields (w : World) :
  exists message command channel login,
    lookup_entry generate_packet_builder_references "sendMessage_Hello" w
      = Ok message
    /\ lookup_entry generate_packet_builder_references "sendCommand_status" w
       = Ok command
    /\ lookup_entry generate_packet_builder_references
                    "sendChannelMessage_0_Hi" w = Ok channel
    /\ lookup_entry generate_packet_builder_references "sendLogin" w
       = Ok login
    /\ slice message 0 3 = [0x02; 0x00; 0x00]
    /\ slice command 0 3 = [0x02; 0x01; 0x00]
    /\ slice channel 0 3 = [0x03; 0x00; 0x00]
    /\ le_value (slice message 3 7) = REFERENCE_TIMESTAMP
    /\ le_value (slice command 3 7) = REFERENCE_TIMESTAMP
    /\ le_value (slice channel 3 7) = REFERENCE_TIMESTAMP
    /\ bytes_fromhex "0123456789AB" = Ok (slice message 7 13)
    /\ slice command 7 13 = slice message 7 13
    /\ slice login 1 7 = slice message 7 13
    /\ skipn 13 message = str_encode "Hello"
    /\ skipn 13 command = str_encode "status"
    /\ skipn 7 channel = str_encode "Hi".
Proof.
  do 4 eexists.
  do 4 (split; [run_entry|]).
  repeat split; vm_compute; reflexivity.
Qed.

(** X16: the floating-point products of setCoords and setRadio truncate to the
    exact decimal values: the setCoords frame carries 37774900 and
    -122419400 micro-degrees as signed 32-bit little-endian integers and
    four zero bytes, the setRadio frame 906875 and 250000 as unsigned ones,
    then the spreading factor 11 and the coding rate 8. *)
Theorem fixed_point_fields (w : World) :
  exists coords radio,
    lookup_entry generate_packet_builder_references "setCoords_SF" w
      = Ok coords
    /\ lookup_entry generate_packet_builder_references "setRadio_default" w
       = Ok radio
    /\ int_of_float (37.7749 * 1e6)%float
       = Ok (Qtrunc ((377749 # 10000) * inject_Z 1000000)%Q)
    /\ int_of_float (-122.4194 * 1e6)%float
       = Ok (Qtrunc (- (1224194 # 10000) * inject_Z 1000000)%Q)
    /\ int_of_float (906.875 * 1000)%float
       = Ok (Qtrunc ((906875 # 1000) * inject_Z 1000)%Q)
    /\ signed_value 4 (le_value (slice coords 1 5)) = 37774900
    /\ signed_value 4 (le_value (slice coords 5 9)) = -122419400
    /\ slice coords 9 13 = [0; 0; 0; 0]
    /\ List.length coords = 13%nat
    /\ le_value (slice radio 1 5) = 906875
    /\ le_value (slice radio 5 9) = 250000
    /\ skipn 9 radio = [11; 8].
Proof.
  do 2 eexists.
  do 2 (split; [run_entry|]).
  repeat split; vm_compute; reflexivity.
Qed.
